(** * statusline.py: a shallow embedding and its verified properties

    The program reads one JSON payload from standard input, looks up an
    OAuth bearer token (macOS keychain or a credentials file on Linux),
    fetches the account usage from a remote endpoint and prints one
    colored line.

    Conventions of the embedding.
    - A Python [str] is a Rocq [string] holding its UTF-8 encoding; the
      operations the program performs on it ([endswith('Z')], [[:-1]],
      [rfind('/')]) look only at ASCII bytes, which in UTF-8 are always
      whole code points.
    - A Python exception is a value of [pyexc]; code that may raise returns
      [result].  [try ... except (A, B): h] is [try_except].
    - A Python [float] is an IEEE number given by sign, mantissa and binary
      exponent ([pyfloat]); every binary64 value is of that form.
    - Functions of the Python runtime that the program calls but does not
      define ([json.loads], [str.strip], [datetime.fromisoformat], [repr])
      are parameters of the development; the operating system (standard
      input, keychain, credentials file, network, clock) is a [World].
    - The host is a POSIX one ([os.path] is [posixpath]) and only
      exceptions below [Exception] are considered (no [KeyboardInterrupt]).
    - [main] and [run] give the line handed to [print]; [run_process] adds
      what writing it to standard output may raise (a [str] holding a lone
      surrogate, which [json.loads] builds from an escape and which is kept
      here by its three-byte generalized encoding, cannot be encoded). *)

From Stdlib Require Import ZArith List String Ascii Bool Lia.
From Stdlib Require Import DecimalString.
Import ListNotations.

Local Open Scope string_scope.
Local Open Scope Z_scope.
Set Warnings "-register-all".

(** ** Exceptions *)

(** The exception classes that the program names in an [except] clause or
    that the operations it performs can raise (all below [Exception]). *)
Inductive pyexc :=
| Exception
| ArithmeticError | OverflowError
| AttributeError
| LookupError | KeyError
| OSError | FileNotFoundError | PermissionError | IsADirectoryError
| TimeoutError | ConnectionError | ConnectionResetError
| URLError | HTTPError
| RuntimeError | RecursionError
| SubprocessError | CalledProcessError | TimeoutExpired
| TypeError
| ValueError | UnicodeError | UnicodeDecodeError | JSONDecodeError.

Definition pyexc_eqb (a b : pyexc) : bool :=
  match a, b with
  | Exception, Exception | ArithmeticError, ArithmeticError
  | OverflowError, OverflowError | AttributeError, AttributeError
  | LookupError, LookupError | KeyError, KeyError | OSError, OSError
  | FileNotFoundError, FileNotFoundError | PermissionError, PermissionError
  | IsADirectoryError, IsADirectoryError | TimeoutError, TimeoutError
  | ConnectionError, ConnectionError
  | ConnectionResetError, ConnectionResetError | URLError, URLError
  | HTTPError, HTTPError | RuntimeError, RuntimeError
  | RecursionError, RecursionError | SubprocessError, SubprocessError
  | CalledProcessError, CalledProcessError | TimeoutExpired, TimeoutExpired
  | TypeError, TypeError | ValueError, ValueError
  | UnicodeError, UnicodeError | UnicodeDecodeError, UnicodeDecodeError
  | JSONDecodeError, JSONDecodeError => true
  | _, _ => false
  end.

(** The direct base class, as in CPython 3.10+ (the source uses [str | None]
    annotations, so it needs 3.10 at least). *)
Definition base (e : pyexc) : option pyexc :=
  match e with
  | Exception => None
  | ArithmeticError | AttributeError | LookupError | OSError | RuntimeError
  | SubprocessError | TypeError | ValueError => Some Exception
  | OverflowError => Some ArithmeticError
  | KeyError => Some LookupError
  | FileNotFoundError | PermissionError | IsADirectoryError | TimeoutError
  | ConnectionError | URLError => Some OSError
  | ConnectionResetError => Some ConnectionError
  | HTTPError => Some URLError
  | RecursionError => Some RuntimeError
  | CalledProcessError | TimeoutExpired => Some SubprocessError
  | UnicodeError | JSONDecodeError => Some ValueError
  | UnicodeDecodeError => Some UnicodeError
  end.

Fixpoint issubclass_fuel (fuel : nat) (e c : pyexc) : bool :=
  pyexc_eqb e c ||
  match fuel with
  | O => false
  | S fuel' =>
      match base e with
      | Some b => issubclass_fuel fuel' b c
      | None => false
      end
  end.

(** The hierarchy above is four levels deep. *)
Definition issubclass (e c : pyexc) : bool := issubclass_fuel 4 e c.

(** [except (c1, c2, ...)] matches [e]. *)
Definition caught_by (classes : list pyexc) (e : pyexc) : bool :=
  existsb (issubclass e) classes.

Inductive result (A : Type) :=
| Ok (a : A)
| Raise (e : pyexc).
Arguments Ok {A} a.
Arguments Raise {A} e.

Definition bind {A B} (r : result A) (k : A -> result B) : result B :=
  match r with
  | Ok a => k a
  | Raise e => Raise e
  end.

Definition try_except {A} (body : result A) (classes : list pyexc)
    (handler : result A) : result A :=
  match body with
  | Ok a => Ok a
  | Raise e => if caught_by classes e then handler else Raise e
  end.

Declare Scope py_scope.
Delimit Scope py_scope with py.
Notation "x <- c ;; k" := (bind c (fun x => k))
  (at level 61, c at next level, right associativity) : py_scope.
Local Open Scope py_scope.

(** ** Values *)

(** IEEE floating-point numbers: [FFin neg m e] is (-1)^neg * m * 2^e. *)
Inductive pyfloat :=
| FNan
| FInf (neg : bool)
| FFin (neg : bool) (m : N) (e : Z).

(** The values [json.loads] builds.  A [dict] is kept as the list of its
    items; its keys are strings and pairwise different. *)
Inductive pyval :=
| PNone
| PBool (b : bool)
| PInt (z : Z)
| PFloat (f : pyfloat)
| PStr (s : string)
| PList (l : list pyval)
| PDict (items : list (string * pyval)).

(** Truth value of an object ([not x], [if x:], [x or y]). *)
Definition truthy (v : pyval) : bool :=
  match v with
  | PNone => false
  | PBool b => b
  | PInt z => negb (z =? 0)
  | PFloat (FFin _ m _) => negb (N.eqb m 0)
  | PFloat _ => true
  | PStr s => negb (String.eqb s "")
  | PList l => match l with [] => false | _ => true end
  | PDict d => match d with [] => false | _ => true end
  end.

(** [x or y] *)
Definition py_or (x y : pyval) : pyval := if truthy x then x else y.

Fixpoint lookup (k : string) (items : list (string * pyval)) : option pyval :=
  match items with
  | [] => None
  | (k', v) :: rest => if String.eqb k k' then Some v else lookup k rest
  end.

(** [obj.get(k, default)]: only a [dict] has the attribute [get]. *)
Definition py_get (obj : pyval) (k : string) (default : pyval) : result pyval :=
  match obj with
  | PDict items =>
      Ok match lookup k items with Some v => v | None => default end
  | _ => Raise AttributeError
  end.

(** ** Strings *)

Definition ESC : ascii := "027"%char.
Definition BLUE : string := String ESC "[34m".
Definition GREEN : string := String ESC "[32m".
Definition YELLOW : string := String ESC "[33m".
Definition RED : string := String ESC "[31m".
Definition CYAN : string := String ESC "[36m".
Definition RESET : string := String ESC "[0m".

Definition USAGE_THRESHOLD_HIGH : Z := 80.
Definition USAGE_THRESHOLD_MEDIUM : Z := 50.

(** [str(n)] for an [int]. *)
Definition dec (z : Z) : string := NilZero.string_of_int (Z.to_int z).

Fixpoint last_char (s : string) : option ascii :=
  match s with
  | EmptyString => None
  | String c EmptyString => Some c
  | String _ rest => last_char rest
  end.

(** [s.endswith(c)] for a one-character [c]. *)
Definition endswith (s : string) (c : ascii) : bool :=
  match last_char s with
  | Some d => Ascii.eqb d c
  | None => false
  end.

(** [s[:-1]] *)
Fixpoint but_last (s : string) : string :=
  match s with
  | EmptyString => EmptyString
  | String _ EmptyString => EmptyString
  | String c rest => String c (but_last rest)
  end.

(** [s.rfind(c)]: the highest index of [c] in [s], or -1. *)
Fixpoint rfind_from (c : ascii) (s : string) (i : Z) (found : Z) : Z :=
  match s with
  | EmptyString => found
  | String d rest =>
      rfind_from c rest (i + 1) (if Ascii.eqb d c then i else found)
  end.

Definition rfind (s : string) (c : ascii) : Z := rfind_from c s 0 (-1).

(** [s[i:]] for [0 <= i]. *)
Fixpoint slice_from (i : nat) (s : string) : string :=
  match i, s with
  | O, _ => s
  | S _, EmptyString => EmptyString
  | S i', String _ rest => slice_from i' rest
  end.

(** [if s.endswith('Z'): s = s[:-1] + '+00:00']: the text handed to
    [fromisoformat]. *)
Definition iso_text (s : string) : string :=
  if endswith s "Z" then but_last s ++ "+00:00" else s.

(** [posixpath.basename]: [i = p.rfind('/') + 1; return p[i:]], after
    [os.fspath], which rejects what is not a path. *)
Definition basename (p : pyval) : result string :=
  match p with
  | PStr s =>
      let i := rfind s "/" + 1 in
      Ok (slice_from (Z.to_nat i) s)
  | _ => Raise TypeError
  end.

(** ** Numbers *)

(** Nearest integer to [num / den] ([0 < den]), ties to the even one. *)
Definition round_half_even (num den : Z) : Z :=
  let q := num / den in
  let r := num mod den in
  match 2 * r ?= den with
  | Lt => q
  | Gt => q + 1
  | Eq => if Z.even q then q else q + 1
  end.

Definition signed (neg : bool) (m : Z) : Z := if neg then - m else m.

(** [float(n)] for an [int]: the nearest binary64 number, ties to even;
    [OverflowError] when that is beyond the largest finite one. *)
Definition float_of_int (z : Z) : result pyfloat :=
  let n := Z.abs z in
  let sh := Z.max 0 (Z.log2 n + 1 - 53) in
  let m := round_half_even n (2 ^ sh) in
  if 2 ^ 1024 <=? m * 2 ^ sh then Raise OverflowError
  else Ok (FFin (z <? 0) (Z.to_N m) sh).

(** [a / b] for two [int]s with [0 < b] (true division): the binary64
    number nearest to the quotient, ties to even.  The quotient is scaled by
    a power of two so that its integer part has 53 or 54 bits, and by one
    more bit in the latter case. *)
Definition int_true_div (a b : Z) : pyfloat :=
  let n := Z.abs a in
  if n =? 0 then FFin false 0 0 else
  let scaled e := (n * 2 ^ Z.max 0 (- e), b * 2 ^ Z.max 0 e) in
  let e0 := Z.log2 n - Z.log2 b - 53 in
  let e := if 2 ^ 53 <=? fst (scaled e0) / snd (scaled e0) then e0 + 1 else e0 in
  FFin (a <? 0) (Z.to_N (round_half_even (fst (scaled e)) (snd (scaled e)))) e.

(** [x >= k] and [x <= k] for a float [x] and an [int] [k]: Python compares
    the two exactly; every comparison with a NaN is false. *)
Definition float_ge_int (x : pyfloat) (k : Z) : bool :=
  match x with
  | FNan => false
  | FInf neg => negb neg
  | FFin neg m e =>
      if 0 <=? e then k <=? signed neg (Z.of_N m) * 2 ^ e
      else k * 2 ^ (- e) <=? signed neg (Z.of_N m)
  end.

Definition float_le_int (x : pyfloat) (k : Z) : bool :=
  match x with
  | FNan => false
  | FInf neg => neg
  | FFin neg m e =>
      if 0 <=? e then signed neg (Z.of_N m) * 2 ^ e <=? k
      else signed neg (Z.of_N m) <=? k * 2 ^ (- e)
  end.

(** [int(x)]: truncation towards zero. *)
Definition int_of_float (x : pyfloat) : result Z :=
  match x with
  | FNan => Raise ValueError
  | FInf _ => Raise OverflowError
  | FFin neg m e =>
      Ok (signed neg (if 0 <=? e then Z.of_N m * 2 ^ e
                      else Z.of_N m / 2 ^ (- e)))
  end.

(** [x >= k] for an arbitrary object [x] and an [int] [k]. [bool] is a
    subclass of [int]; the other types do not order against [int]. *)
Definition py_ge (x : pyval) (k : Z) : result bool :=
  match x with
  | PInt z => Ok (k <=? z)
  | PBool b => Ok (k <=? (if b then 1 else 0))
  | PFloat f => Ok (float_ge_int f k)
  | _ => Raise TypeError
  end.

(** [format(x, ".0f")] for a float: the decimal integer nearest to the
    exact value, ties to even, with the sign of [x]. *)
Definition format_float_0f (x : pyfloat) : string :=
  match x with
  | FNan => "nan"
  | FInf neg => if neg then "-inf" else "inf"
  | FFin neg m e =>
      (if neg then "-" else "") ++
      dec (if 0 <=? e then Z.of_N m * 2 ^ e
           else round_half_even (Z.of_N m) (2 ^ (- e)))
  end.

(** [f"{x:.0f}"]: an [int] (or [bool]) is converted to [float] first;
    [str] rejects the format code, the other types the format string. *)
Definition format_0f (x : pyval) : result string :=
  match x with
  | PInt z => f <- float_of_int z ;; Ok (format_float_0f f)
  | PBool b => f <- float_of_int (if b then 1 else 0) ;; Ok (format_float_0f f)
  | PFloat f => Ok (format_float_0f f)
  | PStr _ => Raise ValueError
  | _ => Raise TypeError
  end.

(** ** The program: color tiers *)

(** [get_usage_color], lines 170-175. *)
Definition get_usage_color (percentage : pyval) : result string :=
  high <- py_ge percentage USAGE_THRESHOLD_HIGH ;;
  if high then Ok RED
  else
    medium <- py_ge percentage USAGE_THRESHOLD_MEDIUM ;;
    if medium then Ok YELLOW else Ok GREEN.

(** [f"{get_usage_color(p)}{p:.0f}%{RESET}"], evaluated left to right
    (lines 48, 165 and 166). *)
Definition colored_percentage (p : pyval) : result string :=
  color <- get_usage_color p ;;
  digits <- format_0f p ;;
  Ok (color ++ digits ++ "%" ++ RESET).

(** ** Bytes *)

Definition byte_in (lo hi b : Z) : bool := (lo <=? b) && (b <=? hi).

(** Well-formed UTF-8 (Unicode, table 3-7): no overlong form, no surrogate,
    nothing above U+10FFFF. *)
Fixpoint utf8_valid (l : list Z) : bool :=
  match l with
  | [] => true
  | b0 :: r0 =>
      if b0 <=? 127 then utf8_valid r0
      else
        match r0 with
        | [] => false
        | b1 :: r1 =>
            if byte_in 194 223 b0 then byte_in 128 191 b1 && utf8_valid r1
            else
              match r1 with
              | [] => false
              | b2 :: r2 =>
                  if (b0 =? 224) && byte_in 160 191 b1
                     || byte_in 225 236 b0 && byte_in 128 191 b1
                     || (b0 =? 237) && byte_in 128 159 b1
                     || byte_in 238 239 b0 && byte_in 128 191 b1
                  then byte_in 128 191 b2 && utf8_valid r2
                  else
                    match r2 with
                    | [] => false
                    | b3 :: r3 =>
                        ((b0 =? 240) && byte_in 144 191 b1
                         || byte_in 241 243 b0 && byte_in 128 191 b1
                         || (b0 =? 244) && byte_in 128 143 b1)
                        && byte_in 128 191 b2 && byte_in 128 191 b3
                        && utf8_valid r3
                    end
              end
        end
  end.

Definition byte_codes (s : string) : list Z :=
  map (fun c => Z.of_N (N_of_ascii c)) (list_ascii_of_string s).

(** [b.decode()]: strict UTF-8. The decoded [str] is kept in its UTF-8
    encoding, so it is the same bytes. *)
Definition bytes_decode (b : string) : result string :=
  if utf8_valid (byte_codes b) then Ok b else Raise UnicodeDecodeError.

(** ** Dates *)

(** A [datetime]: [wall] is the number of microseconds from
    0001-01-01T00:00:00 to the instant its fields (year ... microsecond)
    name, [utcoffset] the offset of its [tzinfo] in microseconds, [None]
    for a naive one. *)
Record datetime := { wall : Z; utcoffset : option Z }.

(** [dt.replace(tzinfo=timezone.utc)] *)
Definition replace_tzinfo_utc (dt : datetime) : datetime :=
  {| wall := wall dt; utcoffset := Some 0 |}.

(** [a - b], a [timedelta] in microseconds: two aware datetimes are
    compared as instants, two naive ones field by field, and one of each
    kind cannot be subtracted. *)
Definition datetime_sub (a b : datetime) : result Z :=
  match utcoffset a, utcoffset b with
  | Some oa, Some ob => Ok ((wall a - oa) - (wall b - ob))
  | None, None => Ok (wall a - wall b)
  | _, _ => Raise TypeError
  end.

(** [delta.total_seconds()]: the microseconds divided by [10**6]. *)
Definition total_seconds (delta : Z) : pyfloat := int_true_div delta (10 ^ 6).

(** ** The operating system and the clock *)

Record World := {
  (** [sys.stdin.read()] *)
  stdin_read : result string;
  (** [platform.system()] *)
  system : string;
  (** [subprocess.run(["security", "find-generic-password", "-s",
      "Claude Code-credentials", "-w"], capture_output=True, text=True,
      timeout=2, check=True).stdout] *)
  keychain : result string;
  (** opening and reading [~/.claude/.credentials.json] *)
  credentials_file : result string;
  (** [urlopen(req, timeout=5)] and [resp.read()], by the value of the
      [Authorization] header: the bytes of the body *)
  usage_api : string -> result string;
  (** the successive readings of [datetime.now(timezone.utc)], as [wall] *)
  clock : nat -> Z
}.

(** Computations that read the clock: the state is the number of readings
    taken so far. *)
Definition M (A : Type) : Type := nat -> result A * nat.

Definition retM {A} (a : A) : M A := fun k => (Ok a, k).

Definition lift {A} (r : result A) : M A := fun k => (r, k).

Definition bindM {A B} (c : M A) (f : A -> M B) : M B :=
  fun k =>
    match c k with
    | (Ok a, k') => f a k'
    | (Raise e, k') => (Raise e, k')
    end.

Definition try_exceptM {A} (body : M A) (classes : list pyexc)
    (handler : M A) : M A :=
  fun k =>
    match body k with
    | (Ok a, k') => (Ok a, k')
    | (Raise e, k') =>
        if caught_by classes e then handler k' else (Raise e, k')
    end.

Notation "x <~ c ;; k" := (bindM c (fun x => k))
  (at level 61, c at next level, right associativity) : py_scope.

(** [datetime.now(timezone.utc)] *)
Definition now_utc (w : World) : M datetime :=
  fun k => (Ok {| wall := clock w k; utcoffset := Some 0 |}, S k).

(** ** The program *)

(** What the process leaves behind: a line on standard output and exit
    status 0, or, when an exception leaves [main], the interpreter's
    traceback on standard error and exit status 1. *)
Inductive outcome :=
| Printed (line : string)
| Traceback (e : pyexc).

Definition exit_code (o : outcome) : Z :=
  match o with
  | Printed _ => 0
  | Traceback _ => 1
  end.

Section Program.

(** [json.loads] on a [str]. *)
Variable json_loads : string -> result pyval.
(** [str.strip()] *)
Variable str_strip : string -> string.
(** [repr] of a float, a list or a dict. *)
Variable py_repr : pyval -> string.
(** [datetime.fromisoformat] on a [str]: [None] stands for its
    [ValueError]. *)
Variable fromisoformat : string -> option datetime.

Variable w : World.

(** [f"{x}"], that is [format(x, "")]: a [str] is itself. *)
Definition py_str (x : pyval) : string :=
  match x with
  | PStr s => s
  | PNone => "None"
  | PBool b => if b then "True" else "False"
  | PInt z => dec z
  | _ => py_repr x
  end.

(** Lines 117-118 of [format_reset_time]: among the values of [pyval] only
    [str] has the attribute [endswith]. *)
Definition normalize_Z (x : pyval) : result string :=
  match x with
  | PStr s => Ok (iso_text s)
  | _ => Raise AttributeError
  end.

(** Lines 128-145 of [format_reset_time], from [delta] on. *)
Definition render_delta (delta : Z) : result string :=
  if float_le_int (total_seconds delta) 0 then Ok " (now)"
  else
    total_seconds <- int_of_float (total_seconds delta) ;;
    let days := total_seconds / (24 * 3600) in
    let remainder_after_days := total_seconds mod (24 * 3600) in
    let hours := remainder_after_days / 3600 in
    let minutes := (remainder_after_days mod 3600) / 60 in
    if 0 <? days then Ok (" (" ++ dec days ++ "d " ++ dec hours ++ "h)")
    else if 0 <? hours then
      Ok (" (" ++ dec hours ++ "h " ++ dec minutes ++ "m)")
    else if 0 <? minutes then Ok (" (" ++ dec minutes ++ "m)")
    else Ok " (<1m)".

(** [format_reset_time], lines 112-147. *)
Definition format_reset_time (resets_at_str : pyval) : M string :=
  if negb (truthy resets_at_str) then retM ""
  else
    try_exceptM
      (resets_at_str <~ lift (normalize_Z resets_at_str) ;;
       resets_at <~ lift match fromisoformat resets_at_str with
                         | Some dt => Ok dt
                         | None => Raise ValueError
                         end ;;
       let resets_at :=
         match utcoffset resets_at with
         | None => replace_tzinfo_utc resets_at
         | Some _ => resets_at
         end in
       now <~ now_utc w ;;
       delta <~ lift (datetime_sub resets_at now) ;;
       lift (render_delta delta))
      [ValueError; TypeError]
      (retM "").

(** [get_access_token_macos], lines 67-83. *)
Definition get_access_token_macos : result pyval :=
  try_except
    (stdout <- keychain w ;;
     let credentials := str_strip stdout in
     if truthy (PStr credentials) then
       creds <- json_loads credentials ;;
       oauth <- py_get creds "claudeAiOauth" (PDict []) ;;
       py_get oauth "accessToken" PNone
     else Ok PNone)
    [CalledProcessError; TimeoutExpired; JSONDecodeError; KeyError]
    (Ok PNone).

(** [get_access_token_linux], lines 86-93. *)
Definition get_access_token_linux : result pyval :=
  try_except
    (text <- credentials_file w ;;
     creds <- json_loads text ;;
     oauth <- py_get creds "claudeAiOauth" (PDict []) ;;
     py_get oauth "accessToken" PNone)
    [FileNotFoundError; JSONDecodeError; KeyError]
    (Ok PNone).

(** [get_access_token], lines 55-64. *)
Definition get_access_token : result pyval :=
  if String.eqb (system w) "Darwin" then get_access_token_macos
  else if String.eqb (system w) "Linux" then get_access_token_linux
  else Ok PNone.

(** [fetch_usage], lines 96-110. *)
Definition fetch_usage (access_token : pyval) : result pyval :=
  try_except
    (body <- usage_api w ("Bearer " ++ py_str access_token) ;;
     text <- bytes_decode body ;;
     json_loads text)
    [URLError; JSONDecodeError; TimeoutError]
    (Ok PNone).

(** [format_usage], lines 150-168. *)
Definition format_usage (usage_data : pyval) : M string :=
  if negb (truthy usage_data) then retM (RED ++ "Usage: N/A" ++ RESET)
  else
    five_hour_usage <~ lift (py_get usage_data "five_hour" (PDict [])) ;;
    weekly_usage <~ lift (py_get usage_data "seven_day" (PDict [])) ;;
    five_hour_u <~ lift (py_get five_hour_usage "utilization" (PInt 0)) ;;
    let five_hour_percentage := py_or five_hour_u (PInt 0) in
    weekly_u <~ lift (py_get weekly_usage "utilization" (PInt 0)) ;;
    let weekly_percentage := py_or weekly_u (PInt 0) in
    five_hour_resets_at <~ lift (py_get five_hour_usage "resets_at" PNone) ;;
    five_hour_reset_str <~ format_reset_time five_hour_resets_at ;;
    weekly_resets_at <~ lift (py_get weekly_usage "resets_at" PNone) ;;
    weekly_reset_str <~ format_reset_time weekly_resets_at ;;
    five_hour_colored <~ lift (colored_percentage five_hour_percentage) ;;
    let five_hour_str := five_hour_colored ++ five_hour_reset_str in
    weekly_colored <~ lift (colored_percentage weekly_percentage) ;;
    let weekly_str := weekly_colored ++ weekly_reset_str in
    retM ("5h: " ++ five_hour_str ++ " | 7d: " ++ weekly_str).

(** Lines 33-37 of [main]: the fields of the payload. *)
Definition extract_fields (data : pyval) : result (string * pyval * pyval) :=
  cwd <- py_get data "cwd" (PStr "") ;;
  project <- basename cwd ;;
  model_obj <- py_get data "model" (PDict []) ;;
  model <- py_get model_obj "display_name" (PStr "") ;;
  context_window <- py_get data "context_window" (PDict []) ;;
  used_percentage <- py_get context_window "used_percentage" (PInt 0) ;;
  let context_percentage := py_or used_percentage (PInt 0) in
  Ok (project, model, context_percentage).

Definition FALLBACK_LINE : string := "statusline: no data".

(** Lines 39-52 of [main]: what follows the extraction. The value is the
    line given to [print]. *)
Definition main_line (fields : string * pyval * pyval) : M string :=
  let '(project, model, context_percentage) := fields in
  access_token <~ lift get_access_token ;;
  usage_str <~
    (if truthy access_token then
       usage_data <~ lift (fetch_usage access_token) ;;
       format_usage usage_data
     else retM (RED ++ "No credentials" ++ RESET)) ;;
  context_usage_str <~ lift (colored_percentage context_percentage) ;;
  retM (project ++ " | " ++ BLUE ++ py_str model ++ RESET ++ " | Ctx: "
        ++ context_usage_str ++ " | " ++ usage_str).

(** [main], lines 25-52. The value is the line given to [print]; a
    raised exception is one that leaves [main]. *)
Definition main : M string :=
  match raw <- stdin_read w ;; json_loads raw with
  | Raise e =>
      if caught_by [Exception] e then retM FALLBACK_LINE else lift (Raise e)
  | Ok data =>
      fields <~ lift (extract_fields data) ;;
      main_line fields
  end.

(** [if __name__ == "__main__": main()], on a standard output that accepts
    every line. *)
Definition run : outcome :=
  match fst (main 0%nat) with
  | Ok line => Printed line
  | Raise e => Traceback e
  end.

End Program.

(** The process with its standard output: [print(line)] is the last
    statement on every path of [main] that returns, and what the write
    raises leaves [main] like any other exception. [stdout_write] is the
    outcome of writing a line (an encoding error, a closed pipe). *)
Definition run_process (stdout_write : string -> result unit)
    (json_loads : string -> result pyval) (str_strip : string -> string)
    (py_repr : pyval -> string) (fromisoformat : string -> option datetime)
    (w : World) : outcome :=
  match fst (main json_loads str_strip py_repr fromisoformat w 0%nat) with
  | Ok line =>
      match stdout_write line with
      | Ok _ => Printed line
      | Raise e => Traceback e
      end
  | Raise e => Traceback e
  end.

(** A standard output that accepts every line. *)
Definition accepting_stdout (line : string) : result unit := Ok tt.

(** ** Specification vocabulary *)

(** The three display tiers of the specification and their colors. *)
Inductive tier := Low | Medium | High.

Definition tier_color (t : tier) : string :=
  match t with
  | Low => GREEN
  | Medium => YELLOW
  | High => RED
  end.

Definition tier_rank (t : tier) : Z :=
  match t with
  | Low => 0
  | Medium => 1
  | High => 2
  end.

(** The value of a number: a dyadic rational [a * 2^e] or an infinity. *)
Inductive xreal :=
| NegInf
| Real (a e : Z)
| PosInf.

(** The numbers among the values: [int], [bool] (a subclass of [int]) and
    every [float] but NaN. *)
Definition number (v : pyval) : option xreal :=
  match v with
  | PInt z => Some (Real z 0)
  | PBool b => Some (Real (if b then 1 else 0) 0)
  | PFloat (FFin neg m e) => Some (Real (signed neg (Z.of_N m)) e)
  | PFloat (FInf neg) => Some (if neg then NegInf else PosInf)
  | _ => None
  end.

(** [a * 2^ea <= b * 2^eb], with the negative powers of two moved to the
    other side. *)
Definition xle (x y : xreal) : Prop :=
  match x, y with
  | NegInf, _ => True
  | _, PosInf => True
  | Real a ea, Real b eb =>
      a * 2 ^ Z.max 0 ea * 2 ^ Z.max 0 (- eb)
      <= b * 2 ^ Z.max 0 eb * 2 ^ Z.max 0 (- ea)
  | _, _ => False
  end.

Definition xlt (x y : xreal) : Prop := ~ xle y x.

Definition of_int (k : Z) : xreal := Real k 0.

(** 79.5 *)
Definition x79_5 : xreal := Real 159 (-1).

(** [n] is an integer nearest to [x]: [n - 1/2 <= x <= n + 1/2]. *)
Definition nearest_integer (x : xreal) (n : Z) : Prop :=
  xle (Real (2 * n - 1) (-1)) x /\ xle x (Real (2 * n + 1) (-1)).

(** The duration in whole seconds, as [int(delta.total_seconds())] gives
    it. *)
Definition whole_seconds (delta : Z) : Z :=
  match int_of_float (total_seconds delta) with
  | Ok secs => secs
  | Raise _ => 0
  end.

(** The specification's rendering of a positive duration of [secs] whole
    seconds: days and remainder hours from one day on, hours and remainder
    minutes from one hour on, minutes from one minute on. *)
Definition humanize_spec (secs : Z) : string :=
  if 86400 <=? secs then
    " (" ++ dec (secs / 86400) ++ "d " ++ dec (secs mod 86400 / 3600) ++ "h)"
  else if 3600 <=? secs then
    " (" ++ dec (secs / 3600) ++ "h " ++ dec (secs mod 3600 / 60) ++ "m)"
  else if 60 <=? secs then " (" ++ dec (secs / 60) ++ "m)"
  else " (<1m)".

(** The instant a [datetime] names, in microseconds of UTC, a naive one
    being read as UTC. *)
Definition instant (dt : datetime) : Z :=
  wall dt - match utcoffset dt with Some o => o | None => 0 end.

(** The payload has the members the program reads with the types the
    interface documents, where it has them at all: [cwd] a string, [model]
    and [context_window] objects. *)
Definition well_typed_payload (data : pyval) : bool :=
  match data with
  | PDict items =>
      match lookup "cwd" items with
      | None | Some (PStr _) => true
      | _ => false
      end
      && match lookup "model" items with
         | None | Some (PDict _) => true
         | _ => false
         end
      && match lookup "context_window" items with
         | None | Some (PDict _) => true
         | _ => false
         end
  | _ => false
  end.

(** The member [k] of the object that is the member [outer] of [items],
    if both are there. *)
Definition nested (outer k : string) (items : list (string * pyval))
    : option pyval :=
  match lookup outer items with
  | Some (PDict inner) => lookup k inner
  | _ => None
  end.

(** The stored credentials are an object whose [claudeAiOauth] member, if
    present, is an object. *)
Definition well_shaped_credentials (creds : pyval) : bool :=
  match creds with
  | PDict items =>
      match lookup "claudeAiOauth" items with
      | None | Some (PDict _) => true
      | _ => false
      end
  | _ => false
  end.

(** The [claudeAiOauth.accessToken] of the stored credentials, or [None]. *)
Definition stored_token (creds : pyval) : pyval :=
  match creds with
  | PDict items =>
      match nested "claudeAiOauth" "accessToken" items with
      | Some token => token
      | None => PNone
      end
  | _ => PNone
  end.

(** A percentage member that can be displayed: null or another false
    value (replaced by 0), a [bool], a [float], or an [int] that converts
    to [float] without overflow. *)
Definition displayable (v : pyval) : bool :=
  match py_or v (PInt 0) with
  | PInt z =>
      match float_of_int z with
      | Ok _ => true
      | Raise _ => false
      end
  | PBool _ | PFloat _ => true
  | _ => false
  end.

(** A [resets_at] member of the documented type: absent, null (or another
    false value) or a string. *)
Definition timestamp_ok (v : pyval) : bool :=
  negb (truthy v) || match v with PStr _ => true | _ => false end.

(** A usage window of the documented shape. *)
Definition window_ok (win : pyval) : bool :=
  match win with
  | PDict items =>
      displayable match lookup "utilization" items with
                  | Some v => v
                  | None => PInt 0
                  end
      && timestamp_ok match lookup "resets_at" items with
                      | Some v => v
                      | None => PNone
                      end
  | _ => false
  end.

(** Usage data of the documented shape: nothing, or an object whose
    [five_hour] and [seven_day] members, if present, are such windows. *)
Definition usage_ok (usage : pyval) : bool :=
  negb (truthy usage)
  || match usage with
     | PDict items =>
         window_ok match lookup "five_hour" items with
                   | Some v => v
                   | None => PDict []
                   end
         && window_ok match lookup "seven_day" items with
                      | Some v => v
                      | None => PDict []
                      end
     | _ => false
     end.

(** ** Sample environments *)

(** A decoder known on finitely many texts, rejecting the others. *)
Definition decoder_of (table : list (string * pyval)) (text : string)
    : result pyval :=
  match lookup text table with
  | Some v => Ok v
  | None => Raise JSONDecodeError
  end.

(** A parser of dates that knows 01:30 UTC on the first day of the
    calendar, written with an offset and without one. *)
Definition sample_fromisoformat (text : string) : option datetime :=
  if String.eqb text "0001-01-01T01:30:00+00:00" then
    Some {| wall := 5400 * 10 ^ 6; utcoffset := Some 0 |}
  else if String.eqb text "0001-01-01T01:30:00" then
    Some {| wall := 5400 * 10 ^ 6; utcoffset := None |}
  else None.

(** The payload of the specification's end-to-end scenario; the host of
    [sample_world] below has no credentials file and no network. *)
Definition quoted (s : string) : string :=
  String "034"%char s ++ String "034"%char EmptyString.

Definition sample_payload_text : string :=
  "{" ++ quoted "cwd" ++ ":" ++ quoted "/home/u/myproj" ++ ","
  ++ quoted "model" ++ ":{" ++ quoted "display_name" ++ ":"
  ++ quoted "Claude" ++ "}," ++ quoted "context_window" ++ ":{"
  ++ quoted "used_percentage" ++ ":42}}".

Definition sample_payload : pyval :=
  PDict [("cwd", PStr "/home/u/myproj");
         ("model", PDict [("display_name", PStr "Claude")]);
         ("context_window", PDict [("used_percentage", PInt 42)])].

(** A Linux host at midnight of that day, by its standard input, its
    credentials file and its network. *)
Definition sample_host (input file : result string)
    (api : string -> result string) : World :=
  {| stdin_read := input;
     system := "Linux";
     keychain := Raise CalledProcessError;
     credentials_file := file;
     usage_api := api;
     clock := fun _ => 0 |}.

Definition sample_world : World :=
  sample_host (Ok sample_payload_text) (Raise FileNotFoundError)
    (fun _ => Raise URLError).

(** The same host given another standard input. *)
Definition world_with_stdin (input : result string) : World :=
  sample_host input (Raise FileNotFoundError) (fun _ => Raise URLError).

(** A [strip] for texts without blanks at their ends, and a [repr] that
    will not be looked at. *)
Definition sample_strip (s : string) : string := s.
Definition sample_repr (v : pyval) : string := "?".

(** ** Vocabulary of the further properties *)

(** The types that order against an [int]. *)
Definition is_numeric (v : pyval) : bool :=
  match v with
  | PInt _ | PBool _ | PFloat _ => true
  | _ => false
  end.

Definition is_str (v : pyval) : bool :=
  match v with
  | PStr _ => true
  | _ => false
  end.

(** [c in s] *)
Fixpoint contains (c : ascii) (s : string) : bool :=
  match s with
  | EmptyString => false
  | String d rest => Ascii.eqb d c || contains c rest
  end.

(** What follows the last [/] of [s], the whole of [s] when it has none. *)
Fixpoint after_last_slash (s : string) : string :=
  match s with
  | EmptyString => EmptyString
  | String c rest =>
      if contains "/" rest then after_last_slash rest
      else if Ascii.eqb c "/" then rest
      else String c rest
  end.

(** Every byte of [s] is below 128. *)
Definition is_ascii (s : string) : bool :=
  forallb (fun b => b <=? 127) (byte_codes s).

(** A usage window with nothing to show: an object whose [utilization] and
    [resets_at] are absent or false values. *)
Definition blank_window (win : pyval) : bool :=
  match win with
  | PDict items =>
      negb (truthy match lookup "utilization" items with
                   | Some v => v
                   | None => PInt 0
                   end)
      && negb (truthy match lookup "resets_at" items with
                      | Some v => v
                      | None => PNone
                      end)
  | _ => false
  end.

(** The member [k] of an object, or [default]. *)
Definition member (k : string) (default : pyval)
    (items : list (string * pyval)) : pyval :=
  match lookup k items with
  | Some v => v
  | None => default
  end.

(** The host [w] behind another network. *)
Definition with_usage_api (w : World) (api : string -> result string)
    : World :=
  {| stdin_read := stdin_read w;
     system := system w;
     keychain := keychain w;
     credentials_file := credentials_file w;
     usage_api := api;
     clock := clock w |}.

(** The sample host with a clock that advances by a minute at each
    reading, and an answer of the usage endpoint whose two windows reset at
    01:30 of the first day. *)
Definition ticking_world : World :=
  {| stdin_read := Ok sample_payload_text;
     system := "Linux";
     keychain := Raise CalledProcessError;
     credentials_file := Raise FileNotFoundError;
     usage_api := fun _ => Raise URLError;
     clock := fun k => Z.of_nat k * 60 * 10 ^ 6 |}.

Definition sample_usage_items : list (string * pyval) :=
  [("five_hour", PDict [("utilization", PInt 10);
                        ("resets_at", PStr "0001-01-01T01:30:00Z")]);
   ("seven_day", PDict [("utilization", PInt 60);
                        ("resets_at", PStr "0001-01-01T01:30:00")])].

(** The sign and the magnitude of a finite number. *)
Definition magnitude (p : pyval) : option (bool * xreal) :=
  match p with
  | PInt z => Some (z <? 0, Real (Z.abs z) 0)
  | PBool b => Some (false, Real (if b then 1 else 0) 0)
  | PFloat (FFin neg m e) => Some (neg, Real (Z.of_N m) e)
  | _ => None
  end.

(** The percentages whose display is a rounding to a nearest whole number:
    a finite float, a [bool], an [int] below 2^53 in magnitude (a larger
    one is first rounded to a float). *)
Definition roundable (p : pyval) : bool :=
  match p with
  | PInt z => Z.abs z <? 2 ^ 53
  | PBool _ | PFloat (FFin _ _ _) => true
  | _ => false
  end.

(** [digits] is the sign of [p] followed by a whole number nearest to its
    magnitude. *)
Definition shows_rounded (p : pyval) (digits : string) : Prop :=
  exists (neg : bool) (mag : xreal) (n : Z),
    magnitude p = Some (neg, mag) /\ nearest_integer mag n
    /\ digits = (if neg then "-" else "") ++ dec n.

(** The percentage [p] is displayed as [digits] in [color]: the color is
    that of the raw value, the digits are [format(p, ".0f")], a rounding
    for a roundable [p]; from 79.5 to below 80 the digits are 80 and the
    color is that of the medium tier. *)
Definition displayed_as (p : pyval) (color digits : string) : Prop :=
  get_usage_color p = Ok color /\ format_0f p = Ok digits
  /\ (roundable p = true -> shows_rounded p digits)
  /\ (forall x, number p = Some x -> xle x79_5 x -> xlt x (of_int 80) ->
        color = tier_color Medium /\ digits = "80").

(** Payloads whose context usage is 79.75 and 2^53 + 1. *)
Definition payload_text_of (used_percentage : string) : string :=
  "{" ++ quoted "context_window" ++ ":{" ++ quoted "used_percentage" ++ ":"
  ++ used_percentage ++ "}}".

Definition payload_of (used_percentage : pyval) : pyval :=
  PDict [("context_window", PDict [("used_percentage", used_percentage)])].

(** A parser of dates that knows the last microsecond of the 200000th day
    of the calendar. *)
Definition far_fromisoformat (text : string) : option datetime :=
  if String.eqb text "0548-07-31T23:59:59.999999+00:00" then
    Some {| wall := 200000 * 86400 * 10 ^ 6 - 1; utcoffset := Some 0 |}
  else None.

(** * Theorems *)

(** ** Sanity checks of the embedding on concrete values *)

Example basename_examples :
  basename (PStr "/home/u/myproj") = Ok "myproj"
  /\ basename (PStr "/home/u/myproj/") = Ok ""
  /\ basename (PStr "myproj") = Ok "myproj"
  /\ basename PNone = Raise TypeError.
Proof. repeat split. Qed.

(** [".0f"] rounds ties to even and keeps the sign of a negative zero. *)
Example format_0f_examples :
  format_0f (PFloat (FFin false 1 (-1))) = Ok "0"
  /\ format_0f (PFloat (FFin false 3 (-1))) = Ok "2"
  /\ format_0f (PFloat (FFin false 5 (-1))) = Ok "2"
  /\ format_0f (PFloat (FFin true 3 (-4))) = Ok "-0"
  /\ format_0f (PBool true) = Ok "1"
  /\ format_0f (PInt (2 ^ 53 + 1)) = Ok "9007199254740992"
  /\ format_0f (PInt (10 ^ 400)) = Raise OverflowError
  /\ format_0f (PFloat FNan) = Ok "nan"
  /\ format_0f PNone = Raise TypeError.
Proof. repeat split; vm_compute; reflexivity. Qed.

(** One microsecond is 0x1.0c6f7a0b5ed8dp-20 seconds; a microsecond before
    200000 days the quotient rounds up to the whole second. *)
Example total_seconds_examples :
  total_seconds 1 = FFin false 4722366482869645 (-72)
  /\ whole_seconds (90 * 60 * 10 ^ 6) = 5400
  /\ whole_seconds (200000 * 86400 * 10 ^ 6 - 1) = 200000 * 86400.
Proof. repeat split; vm_compute; reflexivity. Qed.

Example issubclass_examples :
  issubclass HTTPError URLError = true
  /\ issubclass JSONDecodeError ValueError = true
  /\ issubclass UnicodeDecodeError JSONDecodeError = false
  /\ issubclass PermissionError FileNotFoundError = false
  /\ issubclass AttributeError TypeError = false.
Proof. repeat split. Qed.

(** ** Color tiers *)

(** A NaN is no number: it compares false with both thresholds. *)
Example get_usage_color_nan : get_usage_color (PFloat FNan) = Ok GREEN.
Proof. reflexivity. Qed.

Lemma pow2_pos (e : Z) : 0 < 2 ^ Z.max 0 e.
Proof. apply Z.pow_pos_nonneg; lia. Qed.

Lemma tier_color_inj (t u : tier) : tier_color t = tier_color u -> t = u.
Proof. destruct t, u; simpl; intros H; try reflexivity; discriminate H. Qed.

(** [py_ge] decides the order of a number against an [int]. *)
Lemma py_ge_number (p : pyval) (x : xreal) (k : Z) :
  number p = Some x ->
  exists b, py_ge p k = Ok b /\ (b = true <-> xle (of_int k) x).
Proof.
  destruct p as [ | b | z | f | s | l | d]; simpl; try discriminate.
  - intros [= <-]. eexists; split; [reflexivity|].
    unfold of_int, xle. simpl. rewrite Z.leb_le. lia.
  - intros [= <-]. eexists; split; [reflexivity|].
    unfold of_int, xle. simpl. rewrite Z.leb_le. lia.
  - destruct f as [ | neg | neg m e]; try discriminate.
    + intros [= <-]. eexists; split; [reflexivity|].
      destruct neg; simpl; intuition discriminate.
    + intros [= <-]. eexists; split; [reflexivity|].
      unfold float_ge_int, of_int, xle.
      destruct (Z.leb_spec 0 e).
      * rewrite Z.leb_le.
        replace (Z.max 0 (- e)) with 0 by lia.
        replace (Z.max 0 e) with e by lia.
        replace (Z.max 0 0) with 0 by lia. simpl (2 ^ 0). lia.
      * rewrite Z.leb_le.
        replace (Z.max 0 (- e)) with (- e) by lia.
        replace (Z.max 0 e) with 0 by lia.
        replace (Z.max 0 (- 0)) with 0 by lia. simpl (2 ^ 0). lia.
Qed.

Lemma xle_trans_int (k : Z) (x y : xreal) :
  xle (of_int k) x -> xle x y -> xle (of_int k) y.
Proof.
  unfold of_int.
  destruct x as [ | a ea | ], y as [ | b eb | ]; simpl; try tauto.
  replace (Z.max 0 (- 0)) with 0 by lia. replace (Z.max 0 0) with 0 by lia.
  simpl (2 ^ 0). rewrite !Z.mul_1_r.
  pose proof (pow2_pos ea) as HP1. pose proof (pow2_pos (- ea)) as HQ1.
  pose proof (pow2_pos eb) as HP2. pose proof (pow2_pos (- eb)) as HQ2.
  set (P1 := 2 ^ Z.max 0 ea) in *. set (Q1 := 2 ^ Z.max 0 (- ea)) in *.
  set (P2 := 2 ^ Z.max 0 eb) in *. set (Q2 := 2 ^ Z.max 0 (- eb)) in *.
  intros H1 H2.
  apply Z.mul_le_mono_pos_r with (p := Q1); [lia|].
  apply Z.le_trans with (m := a * P1 * Q2); [|lia].
  replace (k * Q2 * Q1) with (k * Q1 * Q2) by ring.
  apply Z.mul_le_mono_nonneg_r; lia.
Qed.

Lemma xle_50_80 : xle (of_int 50) (of_int 80).
Proof. unfold of_int, xle. simpl. lia. Qed.

(** The three cases of [get_usage_color] on a number. *)
Lemma get_usage_color_cases (p : pyval) (x : xreal) :
  number p = Some x ->
  (xle (of_int 80) x /\ get_usage_color p = Ok RED)
  \/ (xlt x (of_int 80) /\ xle (of_int 50) x /\ get_usage_color p = Ok YELLOW)
  \/ (xlt x (of_int 50) /\ get_usage_color p = Ok GREEN).
Proof.
  intros Hn. unfold get_usage_color, USAGE_THRESHOLD_HIGH, USAGE_THRESHOLD_MEDIUM.
  destruct (py_ge_number p x 80 Hn) as [b1 [E1 I1]].
  destruct (py_ge_number p x 50 Hn) as [b2 [E2 I2]].
  rewrite E1. simpl. destruct b1.
  - left. split; [apply I1|]; reflexivity.
  - rewrite E2. simpl. right. destruct b2.
    + left. split; [|split; [apply I2|]; reflexivity].
      intros H. apply I1 in H. discriminate H.
    + right. split; [|reflexivity].
      intros H. apply I2 in H. discriminate H.
Qed.

(** C6. For every number [p] (an [int] or a [float] other than NaN, below 0
    and above 100 included) [get_usage_color] yields the color of the low
    tier iff [p < 50], of the medium tier iff [50 <= p < 80] and of the high
    tier iff [80 <= p]; exactly 50 is medium, exactly 80 is high, and the
    tier never decreases when [p] grows. *)
Theorem get_usage_color_tiers (p q : pyval) (x y : xreal) :
  number p = Some x -> number q = Some y ->
  (exists t, get_usage_color p = Ok (tier_color t)
     /\ (t = Low <-> xlt x (of_int 50))
     /\ (t = Medium <-> xle (of_int 50) x /\ xlt x (of_int 80))
     /\ (t = High <-> xle (of_int 80) x))
  /\ get_usage_color (PInt 50) = Ok (tier_color Medium)
  /\ get_usage_color (PInt 80) = Ok (tier_color High)
  /\ (xle x y ->
      forall t u,
        get_usage_color p = Ok (tier_color t) ->
        get_usage_color q = Ok (tier_color u) ->
        tier_rank t <= tier_rank u).
Proof.
  intros Hp Hq.
  assert (H5080 : forall x, xle (of_int 80) x -> xle (of_int 50) x).
  { intros x' H. apply xle_trans_int with (x := of_int 80);
      [apply xle_50_80 | exact H]. }
  split; [|split; [reflexivity|split; [reflexivity|]]].
  - destruct (get_usage_color_cases p x Hp)
      as [[H80 E] | [[H80 [H50 E]] | [H50 E]]].
    + exists High. split; [exact E|]. unfold xlt.
      repeat split; try discriminate; try tauto; intros; exfalso; auto.
    + exists Medium. split; [exact E|]. unfold xlt in *.
      repeat split; try discriminate; try tauto; intros; exfalso; auto.
    + exists Low. split; [exact E|]. unfold xlt in *.
      repeat split; try discriminate; try tauto; intros; exfalso; intuition.
  - intros Hxy t u Ep Eq.
    destruct (get_usage_color_cases p x Hp)
      as [[Hx80 E] | [[Hx80 [Hx50 E]] | [Hx50 E]]];
    rewrite E in Ep; injection Ep as Ep;
    (apply (tier_color_inj High) in Ep
      || apply (tier_color_inj Medium) in Ep
      || apply (tier_color_inj Low) in Ep); subst t;
    destruct (get_usage_color_cases q y Hq)
      as [[Hy80 E'] | [[Hy80 [Hy50 E']] | [Hy50 E']]];
    rewrite E' in Eq; injection Eq as Eq;
    (apply (tier_color_inj High) in Eq
      || apply (tier_color_inj Medium) in Eq
      || apply (tier_color_inj Low) in Eq); subst u; simpl; try lia;
    exfalso; unfold xlt in *.
    + apply Hy80. apply xle_trans_int with (x := x); assumption.
    + apply Hy50. apply H5080. apply xle_trans_int with (x := x); assumption.
    + apply Hy50. apply xle_trans_int with (x := x); assumption.
Qed.

(** The theorem at 79.5 and 80: medium, then high. *)
Lemma get_usage_color_tiers_witness :
  (exists t, get_usage_color (PFloat (FFin false 159 (-1))) = Ok (tier_color t)
     /\ (t = Low <-> xlt x79_5 (of_int 50))
     /\ (t = Medium <-> xle (of_int 50) x79_5 /\ xlt x79_5 (of_int 80))
     /\ (t = High <-> xle (of_int 80) x79_5))
  /\ get_usage_color (PInt 50) = Ok (tier_color Medium)
  /\ get_usage_color (PInt 80) = Ok (tier_color High)
  /\ (xle x79_5 (of_int 80) ->
      forall t u,
        get_usage_color (PFloat (FFin false 159 (-1))) = Ok (tier_color t) ->
        get_usage_color (PInt 80) = Ok (tier_color u) ->
        tier_rank t <= tier_rank u).
Proof.
  apply (get_usage_color_tiers (PFloat (FFin false 159 (-1))) (PInt 80));
    reflexivity.
Defined.


(** ** Rounded display, raw color *)

Lemma round_half_even_nearest (num den : Z) :
  0 < den ->
  2 * num - den <= 2 * (round_half_even num den) * den <= 2 * num + den.
Proof.
  intros Hden. unfold round_half_even.
  pose proof (Z.div_mod num den ltac:(lia)) as Hdm.
  pose proof (Z.mod_pos_bound num den Hden) as Hr.
  set (q := num / den) in *. set (r := num mod den) in *.
  destruct (Z.compare_spec (2 * r) den); [destruct (Z.even q)| |]; nia.
Qed.

(** [format(x, ".0f")] shows an integer nearest to the magnitude of [x]. *)
Lemma format_float_0f_nearest (neg : bool) (m : N) (e : Z) :
  exists n, format_float_0f (FFin neg m e) = (if neg then "-" else "") ++ dec n
    /\ nearest_integer (Real (Z.of_N m) e) n.
Proof.
  unfold format_float_0f, nearest_integer, xle.
  destruct (Z.leb_spec 0 e) as [He | He]; eexists; (split; [reflexivity|]).
  - replace (Z.max 0 (- e)) with 0 by lia. replace (Z.max 0 e) with e by lia.
    change (Z.max 0 (- -1)) with 1. change (Z.max 0 (-1)) with 0.
    change (2 ^ 0) with 1. change (2 ^ 1) with 2.
    assert (0 <= 2 ^ e) by (apply Z.pow_nonneg; lia). nia.
  - replace (Z.max 0 (- e)) with (- e) by lia. replace (Z.max 0 e) with 0 by lia.
    change (Z.max 0 (- -1)) with 1. change (Z.max 0 (-1)) with 0.
    change (2 ^ 0) with 1. change (2 ^ 1) with 2.
    assert (HD : 0 < 2 ^ (- e)) by (apply Z.pow_pos_nonneg; lia).
    pose proof (round_half_even_nearest (Z.of_N m) (2 ^ (- e)) HD). nia.
Qed.

(** A float in [[79.5, 80)] is shown as 80. *)
Lemma format_0f_just_below_80 (p : pyval) (x : xreal) :
  number p = Some x -> xle x79_5 x -> xlt x (of_int 80) ->
  format_0f p = Ok "80".
Proof.
  unfold x79_5, of_int, xlt. intros Hn H1 H2.
  assert (Hint : forall z, x = Real z 0 -> False).
  { intros z ->. cbv [xle] in H1, H2.
    change (Z.max 0 (- -1)) with 1 in *. change (Z.max 0 (-1)) with 0 in *.
    change (Z.max 0 (- 0)) with 0 in *. change (Z.max 0 0) with 0 in *.
    change (2 ^ 0) with 1 in *. change (2 ^ 1) with 2 in *. lia. }
  destruct p as [ | b | z | f | s | l | d]; simpl in Hn; try discriminate Hn.
  - injection Hn as <-. exfalso. eapply Hint. reflexivity.
  - injection Hn as <-. exfalso. eapply Hint. reflexivity.
  - destruct f as [ | neg | neg m e]; try discriminate Hn.
    + injection Hn as <-. destruct neg; simpl in H1, H2; tauto.
    + injection Hn as <-. cbv [xle] in H1, H2.
      change (Z.max 0 (- -1)) with 1 in *. change (Z.max 0 (-1)) with 0 in *.
      change (Z.max 0 (- 0)) with 0 in *. change (Z.max 0 0) with 0 in *.
      change (2 ^ 1) with 2 in *.
      destruct (Z.leb_spec 0 e) as [He | He].
      * replace (Z.max 0 (- e)) with 0 in * by lia.
        replace (Z.max 0 e) with e in * by lia.
        change (2 ^ 0) with 1 in *. exfalso. lia.
      * replace (Z.max 0 (- e)) with (- e) in * by lia.
        replace (Z.max 0 e) with 0 in * by lia. change (2 ^ 0) with 1 in *.
        assert (HD : 0 < 2 ^ (- e)) by (apply Z.pow_pos_nonneg; lia).
        set (D := 2 ^ (- e)) in *.
        assert (Hneg : neg = false).
        { destruct neg; [|reflexivity]. unfold signed in H1. lia. }
        subst neg. unfold signed in H1, H2.
        assert (Hq : Z.of_N m / D = 79).
        { symmetry. apply Z.div_unique with (r := Z.of_N m - 79 * D); lia. }
        assert (Hr : Z.of_N m mod D = Z.of_N m - 79 * D).
        { symmetry. apply Z.mod_unique with (q := 79); lia. }
        unfold format_0f, format_float_0f.
        destruct (Z.leb_spec 0 e); [lia|]. fold D.
        unfold round_half_even. rewrite Hq, Hr.
        destruct (Z.compare_spec (2 * (Z.of_N m - 79 * D)) D);
          try reflexivity. lia.
Qed.

(** An [int] below 2^53 in magnitude converts to [float] exactly. *)
Lemma float_of_int_small (z : Z) :
  Z.abs z < 2 ^ 53 ->
  float_of_int z = Ok (FFin (z <? 0) (Z.to_N (Z.abs z)) 0).
Proof.
  intros Hz. unfold float_of_int.
  assert (Hsh : Z.max 0 (Z.log2 (Z.abs z) + 1 - 53) = 0).
  { destruct (Z.eq_dec (Z.abs z) 0) as [E | E].
    - rewrite E. reflexivity.
    - assert (Z.log2 (Z.abs z) < 53) by (apply Z.log2_lt_pow2; lia). lia. }
  rewrite Hsh. change (2 ^ 0) with 1.
  assert (Hm : round_half_even (Z.abs z) 1 = Z.abs z).
  { unfold round_half_even. rewrite Z.div_1_r, Z.mod_1_r. reflexivity. }
  rewrite Hm, Z.mul_1_r.
  destruct (Z.leb_spec (2 ^ 1024) (Z.abs z)) as [H | H]; [|reflexivity].
  exfalso. assert (2 ^ 53 < 2 ^ 1024) by (apply Z.pow_lt_mono_r; lia). lia.
Qed.

Lemma format_0f_int_small (z : Z) :
  Z.abs z < 2 ^ 53 ->
  format_0f (PInt z) = Ok ((if z <? 0 then "-" else "") ++ dec (Z.abs z)).
Proof.
  intros Hz. unfold format_0f. rewrite (float_of_int_small z Hz). simpl.
  rewrite Z2N.id by lia. rewrite Z.mul_1_r. reflexivity.
Qed.

(** A colored percentage is the color chosen from the raw value followed
    by [format(p, ".0f")]: a float shows an integer at distance at most 1/2
    from it, an [int] below 2^53 shows itself, and a number from 79.5 to
    below 80 shows "80%" in the color of the medium tier. *)
Lemma displayed_rounded_colored_raw (p : pyval) (x : xreal) :
  number p = Some x ->
  (forall c d, get_usage_color p = Ok c -> format_0f p = Ok d ->
     colored_percentage p = Ok (c ++ d ++ "%" ++ RESET))
  /\ (forall neg m e, p = PFloat (FFin neg m e) ->
        exists n, format_0f p = Ok ((if neg then "-" else "") ++ dec n)
          /\ nearest_integer (Real (Z.of_N m) e) n)
  /\ (forall z, p = PInt z -> Z.abs z < 2 ^ 53 ->
        format_0f p = Ok ((if z <? 0 then "-" else "") ++ dec (Z.abs z)))
  /\ (xle x79_5 x -> xlt x (of_int 80) ->
        get_usage_color p = Ok (tier_color Medium)
        /\ format_0f p = Ok "80"
        /\ colored_percentage p = Ok (YELLOW ++ "80" ++ "%" ++ RESET)).
Proof.
  intros Hn. split; [|split; [|split]].
  - intros c d Hc Hd. unfold colored_percentage. rewrite Hc, Hd. reflexivity.
  - intros neg m e ->. simpl.
    destruct (format_float_0f_nearest neg m e) as [n [E Hnear]].
    exists n. split; [f_equal; exact E | exact Hnear].
  - intros z -> Hz. apply format_0f_int_small, Hz.
  - intros H1 H2.
    assert (Hc : get_usage_color p = Ok YELLOW).
    { destruct (get_usage_color_cases p x Hn)
        as [[H80 E] | [[H80 [H50 E]] | [H50 E]]].
      - exfalso. apply H2, H80.
      - exact E.
      - exfalso. apply H50. apply xle_trans_int with (x := x79_5); [|exact H1].
        unfold of_int, x79_5, xle. simpl. lia. }
    pose proof (format_0f_just_below_80 p x Hn H1 H2) as Hd.
    split; [exact Hc | split; [exact Hd|]].
    unfold colored_percentage. rewrite Hc, Hd. reflexivity.
Qed.

(** At 79.75 = 319 * 2^-2. *)
Lemma displayed_rounded_colored_raw_witness :
  colored_percentage (PFloat (FFin false 319 (-2)))
  = Ok (YELLOW ++ "80" ++ "%" ++ RESET).
Proof.
  refine (proj2 (proj2 (proj2 (proj2 (proj2 (displayed_rounded_colored_raw
            (PFloat (FFin false 319 (-2))) (Real 319 (-2)) eq_refl))) _ _))).
  - unfold x79_5, xle. simpl. lia.
  - unfold xlt, of_int, xle. simpl. lia.
Defined.

(** ** True division and whole seconds *)

(** The scaling of [int_true_div] leaves at least 53 bits in the integer
    part of the quotient. *)
Lemma scaled_quotient_lower (n b : Z) :
  0 < n -> 0 < b ->
  let e0 := Z.log2 n - Z.log2 b - 53 in
  2 ^ 52 * (b * 2 ^ Z.max 0 e0) <= n * 2 ^ Z.max 0 (- e0).
Proof.
  intros Hn Hb e0.
  pose proof (Z.log2_spec n Hn) as [Hn1 _].
  pose proof (Z.log2_spec b Hb) as [_ Hb2].
  pose proof (Z.log2_nonneg n) as Hln. pose proof (Z.log2_nonneg b) as Hlb.
  set (ln := Z.log2 n) in *. set (lb := Z.log2 b) in *.
  destruct (Z.le_gt_cases 0 e0) as [He | He].
  - replace (Z.max 0 e0) with e0 by lia. replace (Z.max 0 (- e0)) with 0 by lia.
    change (2 ^ 0) with 1. rewrite Z.mul_1_r.
    assert (E : 2 ^ ln = 2 ^ 52 * (2 ^ Z.succ lb * 2 ^ e0)).
    { rewrite <- !Z.pow_add_r by lia. f_equal. unfold e0. lia. }
    assert (0 < 2 ^ e0) by (apply Z.pow_pos_nonneg; lia).
    nia.
  - replace (Z.max 0 e0) with 0 by lia.
    replace (Z.max 0 (- e0)) with (- e0) by lia.
    change (2 ^ 0) with 1. rewrite Z.mul_1_r.
    assert (E : 2 ^ ln * 2 ^ (- e0) = 2 ^ 52 * 2 ^ Z.succ lb).
    { rewrite <- !Z.pow_add_r by lia. f_equal. unfold e0. lia. }
    assert (0 < 2 ^ (- e0)) by (apply Z.pow_pos_nonneg; lia).
    nia.
Qed.

Lemma round_half_even_lower (num den : Z) :
  0 < den -> num / den <= round_half_even num den.
Proof.
  intros _. unfold round_half_even.
  destruct (2 * (num mod den) ?= den); [destruct (Z.even (num / den))| |]; lia.
Qed.

(** The result of [a / b] for positive [int]s: a mantissa of at least 53
    bits, rounded from the scaled quotient. *)
Lemma int_true_div_pos (a b : Z) :
  0 < a -> 0 < b ->
  exists m e,
    int_true_div a b = FFin false (Z.to_N m) e
    /\ 2 ^ 52 <= m
    /\ Z.log2 a - Z.log2 b - 53 <= e <= Z.log2 a - Z.log2 b - 52
    /\ m = round_half_even (a * 2 ^ Z.max 0 (- e)) (b * 2 ^ Z.max 0 e).
Proof.
  intros Ha Hb. unfold int_true_div.
  rewrite (Z.abs_eq a) by lia.
  destruct (Z.eqb_spec a 0) as [E | _]; [lia|].
  replace (a <? 0) with false by (symmetry; apply Z.ltb_ge; lia).
  cbv zeta. unfold fst, snd.
  pose proof (scaled_quotient_lower a b Ha Hb) as Hlow. cbv zeta in Hlow.
  set (e0 := Z.log2 a - Z.log2 b - 53) in *.
  assert (Hden : forall e, 0 < b * 2 ^ Z.max 0 e).
  { intros e. pose proof (pow2_pos e). nia. }
  assert (Hfinal : forall e, e0 <= e <= e0 + 1 ->
            2 ^ 52 * (b * 2 ^ Z.max 0 e) <= a * 2 ^ Z.max 0 (- e) ->
            exists m e',
              FFin false (Z.to_N (round_half_even (a * 2 ^ Z.max 0 (- e))
                                    (b * 2 ^ Z.max 0 e))) e
              = FFin false (Z.to_N m) e'
              /\ 2 ^ 52 <= m
              /\ Z.log2 a - Z.log2 b - 53 <= e' <= Z.log2 a - Z.log2 b - 52
              /\ m = round_half_even (a * 2 ^ Z.max 0 (- e'))
                       (b * 2 ^ Z.max 0 e')).
  { intros e He Hle. eexists; exists e.
    split; [reflexivity|split; [|split; [unfold e0 in He; lia|reflexivity]]].
    eapply Z.le_trans; [|apply round_half_even_lower, Hden].
    apply Z.div_le_lower_bound; [apply Hden|]. lia. }
  destruct (Z.leb_spec (2 ^ 53)
              (a * 2 ^ Z.max 0 (- e0) / (b * 2 ^ Z.max 0 e0))) as [Hq | Hq].
  - apply Hfinal; [lia|].
    assert (Hq' : 2 ^ 53 * (b * 2 ^ Z.max 0 e0) <= a * 2 ^ Z.max 0 (- e0)).
    { pose proof (Z.mul_div_le (a * 2 ^ Z.max 0 (- e0)) (b * 2 ^ Z.max 0 e0)
                    (Hden e0)).
      pose proof (Hden e0). nia. }
    change (2 ^ 53) with (2 * 2 ^ 52) in Hq'.
    destruct (Z.le_gt_cases 0 e0) as [He | He].
    + replace (Z.max 0 (e0 + 1)) with (Z.succ (Z.max 0 e0)) by lia.
      replace (Z.max 0 (- (e0 + 1))) with (Z.max 0 (- e0)) by lia.
      rewrite Z.pow_succ_r by lia. lia.
    + replace (Z.max 0 (e0 + 1)) with (Z.max 0 e0) by lia.
      replace (Z.max 0 (- e0)) with (Z.succ (Z.max 0 (- (e0 + 1)))) in Hq'
        by lia.
      rewrite Z.pow_succ_r in Hq' by lia. lia.
  - apply Hfinal; [lia|exact Hlow].
Qed.

(** [delta.total_seconds() <= 0] holds exactly for a duration that is not
    positive. *)
Lemma total_seconds_le_0 (d : Z) :
  float_le_int (total_seconds d) 0 = (d <=? 0).
Proof.
  unfold total_seconds.
  destruct (Z.lt_trichotomy d 0) as [Hd | [-> | Hd]].
  - replace (d <=? 0) with true by (symmetry; apply Z.leb_le; lia).
    unfold int_true_div.
    destruct (Z.eqb_spec (Z.abs d) 0) as [E | _]; [lia|].
    replace (d <? 0) with true by (symmetry; apply Z.ltb_lt; lia).
    cbv zeta. unfold float_le_int, signed.
    match goal with |- context [Z.of_N ?m] => generalize m end. intros m.
    match goal with |- (if 0 <=? ?e then _ else _) = _ => generalize e end.
    intros e. destruct (Z.leb_spec 0 e) as [He | He]; apply Z.leb_le.
    + assert (0 <= 2 ^ e) by (apply Z.pow_nonneg; lia). nia.
    + lia.
  - reflexivity.
  - replace (d <=? 0) with false by (symmetry; apply Z.leb_gt; lia).
    destruct (int_true_div_pos d (10 ^ 6) Hd ltac:(reflexivity))
      as [m [e [E [Hm _]]]].
    rewrite E. unfold float_le_int, signed. rewrite Z2N.id by lia.
    assert (0 < 2 ^ 52) by reflexivity.
    destruct (Z.leb_spec 0 e) as [He | He]; apply Z.leb_gt.
    + assert (0 < 2 ^ e) by (apply Z.pow_pos_nonneg; lia). nia.
    + lia.
Qed.

(** [int(delta.total_seconds())] of a positive duration is defined and not
    negative. *)
Lemma whole_seconds_pos (d : Z) :
  0 < d ->
  int_of_float (total_seconds d) = Ok (whole_seconds d) /\ 0 <= whole_seconds d.
Proof.
  intros Hd. unfold whole_seconds, total_seconds.
  destruct (int_true_div_pos d (10 ^ 6) Hd ltac:(reflexivity))
    as [m [e [E [Hm _]]]].
  rewrite E. unfold int_of_float, signed. rewrite Z2N.id by lia.
  split; [reflexivity|].
  assert (0 < 2 ^ 52) by reflexivity.
  destruct (Z.leb_spec 0 e) as [He | He].
  - assert (0 <= 2 ^ e) by (apply Z.pow_nonneg; lia). nia.
  - apply Z.div_pos; [lia|]. apply Z.pow_pos_nonneg; lia.
Qed.

(** Below 2^53 microseconds (some 285 years) the whole seconds of the
    rounded quotient are those of the exact one. *)
Lemma whole_seconds_exact (d : Z) :
  0 < d < 2 ^ 53 -> whole_seconds d = d / 10 ^ 6.
Proof.
  intros [Hd Hlt]. unfold whole_seconds, total_seconds.
  destruct (int_true_div_pos d (10 ^ 6) Hd ltac:(reflexivity))
    as [m [e [E [Hm [He Hround]]]]].
  rewrite E. unfold int_of_float, signed. rewrite Z2N.id by lia.
  assert (Hlog : Z.log2 d < 53) by (apply Z.log2_lt_pow2; lia).
  change (Z.log2 (10 ^ 6)) with 19 in He.
  assert (He' : e <= -19) by lia.
  destruct (Z.leb_spec 0 e) as [Hneg | _]; [lia|].
  replace (Z.max 0 (- e)) with (- e) in Hround by lia.
  replace (Z.max 0 e) with 0 in Hround by lia.
  change (2 ^ 0) with 1 in Hround. rewrite Z.mul_1_r in Hround.
  assert (HP : 2 ^ 19 <= 2 ^ (- e)) by (apply Z.pow_le_mono_r; lia).
  change (2 ^ 19) with 524288 in HP.
  set (P := 2 ^ (- e)) in *.
  change (10 ^ 6) with 1000000 in *.
  pose proof (round_half_even_nearest (d * P) 1000000 ltac:(lia)) as Hnear.
  pose proof (round_half_even_lower (d * P) 1000000 ltac:(lia)) as Hlower.
  rewrite <- Hround in Hnear, Hlower.
  pose proof (Z.div_mod d 1000000 ltac:(lia)) as Hdm.
  pose proof (Z.mod_pos_bound d 1000000 ltac:(lia)) as Hmod.
  set (s := d / 1000000) in *. set (t := d mod 1000000) in *.
  assert (Hq : s * P <= d * P / 1000000).
  { apply Z.div_le_lower_bound; [lia|]. nia. }
  symmetry. apply Z.div_unique with (r := m - s * P); [|lia].
  left. split; [lia|]. nia.
Qed.

(** ** Reset-time humanization *)

(** Lines 128-145 agree with the specification's rendering. *)
Lemma render_delta_spec (d : Z) :
  render_delta d
  = Ok (if d <=? 0 then " (now)" else humanize_spec (whole_seconds d)).
Proof.
  unfold render_delta. rewrite total_seconds_le_0.
  destruct (Z.leb_spec d 0) as [Hd | Hd]; [reflexivity|].
  destruct (whole_seconds_pos d Hd) as [E Hs]. rewrite E. simpl bind.
  set (s := whole_seconds d) in *. unfold humanize_spec.
  change (24 * 3600) with 86400.
  pose proof (Z.div_mod s 86400 ltac:(lia)) as Hdm.
  pose proof (Z.mod_pos_bound s 86400 ltac:(lia)) as Hmod.
  destruct (Z.leb_spec 86400 s) as [H1 | H1].
  - assert (Hdays : 0 < s / 86400) by (apply Z.div_str_pos; lia).
    apply Z.ltb_lt in Hdays. rewrite Hdays. reflexivity.
  - assert (Hdays : s / 86400 = 0) by (apply Z.div_small; lia).
    rewrite Hdays. change (0 <? 0) with false. cbv iota.
    assert (Hrem : s mod 86400 = s) by (apply Z.mod_small; lia).
    rewrite Hrem.
    destruct (Z.leb_spec 3600 s) as [H2 | H2].
    + assert (Hh : 0 < s / 3600) by (apply Z.div_str_pos; lia).
      apply Z.ltb_lt in Hh. rewrite Hh. reflexivity.
    + assert (Hh : s / 3600 = 0) by (apply Z.div_small; lia).
      rewrite Hh. change (0 <? 0) with false. cbv iota.
      assert (Hrem' : s mod 3600 = s) by (apply Z.mod_small; lia).
      rewrite Hrem'.
      destruct (Z.leb_spec 60 s) as [H3 | H3].
      * assert (Hm : 0 < s / 60) by (apply Z.div_str_pos; lia).
        apply Z.ltb_lt in Hm. rewrite Hm. reflexivity.
      * assert (Hm : s / 60 = 0) by (apply Z.div_small; lia).
        rewrite Hm. reflexivity.
Qed.

(** [format_reset_time] on a non-empty [str]: nothing for a text that
    [fromisoformat] rejects, else the rendering of the time from the next
    clock reading to the instant named. *)
Lemma format_reset_time_str (fromisoformat : string -> option datetime)
    (w : World) (s : string) (k : nat) :
  s <> "" ->
  format_reset_time fromisoformat w (PStr s) k
  = match fromisoformat (iso_text s) with
    | None => (Ok "", k)
    | Some dt => (render_delta (instant dt - clock w k), S k)
    end.
Proof.
  intros Hs. unfold format_reset_time.
  assert (Ht : truthy (PStr s) = true).
  { simpl. destruct (String.eqb_spec s ""); [contradiction|reflexivity]. }
  rewrite Ht. cbv [negb]. unfold try_exceptM, bindM, lift, normalize_Z.
  destruct (fromisoformat (iso_text s)) as [dt|]; [|reflexivity].
  unfold now_utc, datetime_sub, instant, replace_tzinfo_utc.
  destruct dt as [wl [o|]]; cbn [utcoffset wall].
  - rewrite Z.sub_0_r. rewrite render_delta_spec. reflexivity.
  - rewrite !Z.sub_0_r. rewrite render_delta_spec. reflexivity.
Qed.

(** The whole seconds reach a threshold [c] (a day, an hour, a minute)
    exactly when the duration does. *)
Lemma whole_seconds_threshold (d c : Z) :
  0 < d -> 0 <= c <= 2 ^ 33 ->
  (c <= whole_seconds d <-> c * 10 ^ 6 <= d).
Proof.
  intros Hd Hc.
  destruct (Z.lt_ge_cases d (2 ^ 53)) as [Hlt | Hge].
  - rewrite whole_seconds_exact by lia. change (10 ^ 6) with 1000000.
    pose proof (Z.div_mod d 1000000 ltac:(lia)).
    pose proof (Z.mod_pos_bound d 1000000 ltac:(lia)). lia.
  - assert (H33 : 2 ^ 33 <= whole_seconds d).
    { unfold whole_seconds, total_seconds.
      destruct (int_true_div_pos d (10 ^ 6) Hd ltac:(reflexivity))
        as [m [e [E [Hm [He _]]]]].
      rewrite E. unfold int_of_float, signed. rewrite Z2N.id by lia.
      change (Z.log2 (10 ^ 6)) with 19 in He.
      assert (Hlog : 53 <= Z.log2 d) by (apply Z.log2_le_pow2; lia).
      change (2 ^ 52) with (2 ^ 33 * 2 ^ 19) in Hm.
      destruct (Z.leb_spec 0 e) as [Hpos | Hneg].
      - assert (1 <= 2 ^ e) by (apply (Z.pow_le_mono_r 2 0 e); lia).
        assert (0 < 2 ^ 19) by reflexivity. assert (0 < 2 ^ 33) by reflexivity.
        nia.
      - assert (HP : 0 < 2 ^ (- e)) by (apply Z.pow_pos_nonneg; lia).
        assert (HP' : 2 ^ (- e) <= 2 ^ 19) by (apply Z.pow_le_mono_r; lia).
        apply Z.div_le_lower_bound; [exact HP|].
        assert (0 < 2 ^ 33) by reflexivity. nia. }
    assert (H53 : 2 ^ 33 * 10 ^ 6 <= 2 ^ 53) by (vm_compute; discriminate).
    split; intros _; [|lia].
    apply Z.le_trans with (m := 2 ^ 33 * 10 ^ 6); [|lia].
    apply Z.mul_le_mono_nonneg_r; [vm_compute; discriminate|lia].
Qed.

(** C7, as amended. Reset-time humanization. A missing or empty timestamp,
    or one that [fromisoformat] rejects once a trailing Z is replaced by
    [+00:00], gives the empty string. Otherwise, with [d] the time from now
    to the instant named (in microseconds): " (now)" when [d <= 0]; else,
    with [secs] the whole seconds of [d] as [int(delta.total_seconds())]
    gives them, " (Nd Mh)" from one day on, " (Nh Mm)" from one hour on,
    " (Nm)" from one minute on and " (<1m)" below ([humanize_spec]). The
    whole seconds reach a day, an hour or a minute exactly when [d] does.
    For every [d] below 2^53 microseconds (some 285 years) they are
    [d / 10^6], so that N and M are the whole days and remainder hours
    (hours and minutes, minutes) of the duration itself. 90 minutes give
    " (1h 30m)", 2 days 3 hours " (2d 3h)", 30 seconds " (<1m)". *)
Theorem format_reset_time_humanizes
    (fromisoformat : string -> option datetime) (w : World)
    (s : string) (k : nat) :
  s <> "" ->
  format_reset_time fromisoformat w PNone k = (Ok "", k)
  /\ format_reset_time fromisoformat w (PStr "") k = (Ok "", k)
  /\ (fromisoformat (iso_text s) = None ->
      format_reset_time fromisoformat w (PStr s) k = (Ok "", k))
  /\ (forall dt, fromisoformat (iso_text s) = Some dt ->
      let d := instant dt - clock w k in
      format_reset_time fromisoformat w (PStr s) k
      = (Ok (if d <=? 0 then " (now)" else humanize_spec (whole_seconds d)),
         S k)
      /\ (0 < d ->
          (86400 <= whole_seconds d <-> 86400 * 10 ^ 6 <= d)
          /\ (3600 <= whole_seconds d <-> 3600 * 10 ^ 6 <= d)
          /\ (60 <= whole_seconds d <-> 60 * 10 ^ 6 <= d))
      /\ (0 < d < 2 ^ 53 -> whole_seconds d = d / 10 ^ 6)
      /\ (d = 90 * 60 * 10 ^ 6 ->
          format_reset_time fromisoformat w (PStr s) k
          = (Ok " (1h 30m)", S k))
      /\ (d = (2 * 86400 + 3 * 3600) * 10 ^ 6 ->
          format_reset_time fromisoformat w (PStr s) k
          = (Ok " (2d 3h)", S k))
      /\ (d = 30 * 10 ^ 6 ->
          format_reset_time fromisoformat w (PStr s) k
          = (Ok " (<1m)", S k))
      /\ (0 < d < 2 ^ 53 ->
          format_reset_time fromisoformat w (PStr s) k
          = (Ok (humanize_spec (d / 10 ^ 6)), S k))).
Proof.
  intros Hs. split; [reflexivity|split; [reflexivity|split]].
  - intros E. rewrite (format_reset_time_str fromisoformat w s k Hs), E.
    reflexivity.
  - intros dt E d.
    assert (Hfmt : format_reset_time fromisoformat w (PStr s) k
                   = (render_delta d, S k)).
    { rewrite (format_reset_time_str fromisoformat w s k Hs), E.
      reflexivity. }
    split; [rewrite Hfmt, render_delta_spec; reflexivity|].
    split; [|split; [apply whole_seconds_exact|]].
    + intros Hd.
      repeat split; intros H;
        apply (whole_seconds_threshold d _ Hd) in H; try exact H;
        split; vm_compute; discriminate.
    + rewrite Hfmt.
      split; [|split; [|split]]; try (intros ->; vm_compute; reflexivity).
      intros Hd. rewrite render_delta_spec.
      destruct (Z.leb_spec d 0) as [H0 | _]; [lia|].
      rewrite (whole_seconds_exact d Hd). reflexivity.
Qed.

(** The theorem for a reset at 01:30 UTC read at midnight. *)
Lemma format_reset_time_humanizes_witness :
  format_reset_time sample_fromisoformat sample_world
    (PStr "0001-01-01T01:30:00Z") 0%nat
  = (Ok " (1h 30m)", 1%nat).
Proof.
  refine (proj1 (proj2 (proj2 (proj2 (proj2 (proj2 (proj2
            (format_reset_time_humanizes sample_fromisoformat sample_world
               "0001-01-01T01:30:00Z" 0%nat _))) _ eq_refl)))) _).
  - discriminate.
  - reflexivity.
Defined.

(** C7 as stated fails: a reset a microsecond short of 200000 days ahead
    is 199999 whole days and 23 remainder hours away, but the float
    quotient of [total_seconds] rounds up to the next second and the code
    renders 200000 days and 0 hours. *)
Lemma reset_far_ahead_rounds_up :
  format_reset_time far_fromisoformat sample_world
    (PStr "0548-07-31T23:59:59.999999Z") 0%nat
  = (Ok " (200000d 0h)", 1%nat)
  /\ (200000 * 86400 * 10 ^ 6 - 1) / (86400 * 10 ^ 6) = 199999
  /\ (200000 * 86400 * 10 ^ 6 - 1) mod (86400 * 10 ^ 6) / (3600 * 10 ^ 6)
     = 23.
Proof. repeat split; vm_compute; reflexivity. Qed.

(** C9. A timestamp that parses to a naive [datetime] is read as UTC: the
    duration rendered is its wall time minus the clock's UTC reading, the
    same as for the datetime with an explicit offset of zero; for an aware
    one the duration is its UTC instant minus that same reading. *)
Theorem naive_timestamp_read_as_utc
    (fromisoformat : string -> option datetime) (w : World)
    (s : string) (k : nat) (dt : datetime) :
  s <> "" -> fromisoformat (iso_text s) = Some dt ->
  now_utc w k = (Ok {| wall := clock w k; utcoffset := Some 0 |}, S k)
  /\ (utcoffset dt = None ->
      format_reset_time fromisoformat w (PStr s) k
      = (render_delta (wall dt - clock w k), S k)
      /\ forall parse_as_utc : string -> option datetime,
           parse_as_utc (iso_text s) = Some (replace_tzinfo_utc dt) ->
           format_reset_time parse_as_utc w (PStr s) k
           = format_reset_time fromisoformat w (PStr s) k)
  /\ (forall o, utcoffset dt = Some o ->
      format_reset_time fromisoformat w (PStr s) k
      = (render_delta ((wall dt - o) - clock w k), S k)).
Proof.
  intros Hs E. split; [reflexivity|split].
  - intros Hnaive. split.
    + rewrite (format_reset_time_str fromisoformat w s k Hs), E.
      unfold instant. rewrite Hnaive, Z.sub_0_r. reflexivity.
    + intros parse_as_utc E'.
      rewrite (format_reset_time_str parse_as_utc w s k Hs), E'.
      rewrite (format_reset_time_str fromisoformat w s k Hs), E.
      unfold instant, replace_tzinfo_utc. rewrite Hnaive. reflexivity.
  - intros o Ho.
    rewrite (format_reset_time_str fromisoformat w s k Hs), E.
    unfold instant. rewrite Ho. reflexivity.
Qed.

(** The theorem for a reset written without offset, 01:30, read at
    midnight UTC. *)
Lemma naive_timestamp_read_as_utc_witness :
  format_reset_time sample_fromisoformat sample_world
    (PStr "0001-01-01T01:30:00") 0%nat
  = (render_delta (5400 * 10 ^ 6 - 0), 1%nat).
Proof.
  refine (proj1 (proj1 (proj2 (naive_timestamp_read_as_utc
            sample_fromisoformat sample_world "0001-01-01T01:30:00" 0%nat
            {| wall := 5400 * 10 ^ 6; utcoffset := None |} _ eq_refl))
          eq_refl)).
  discriminate.
Defined.

(** ** Field extraction *)

(** C3, as amended. For every JSON object whose [cwd] member, if present, is
    a string and whose [model] and [context_window] members, if present,
    are objects, the extraction raises nothing: the project is the part of
    [cwd] after its last slash, the model is the [display_name] member
    whatever its type, the context percentage is the [used_percentage]
    member whatever its type, with the empty string, the empty string and
    0 for absent members, and 0 for a null [used_percentage]. *)
Theorem extract_fields_defaults (items : list (string * pyval)) :
  well_typed_payload (PDict items) = true ->
  exists project model context_percentage,
    extract_fields (PDict items) = Ok (project, model, context_percentage)
    /\ (forall s, lookup "cwd" items = Some (PStr s) ->
          basename (PStr s) = Ok project)
    /\ (lookup "cwd" items = None -> project = "")
    /\ (forall v, nested "model" "display_name" items = Some v -> model = v)
    /\ (nested "model" "display_name" items = None -> model = PStr "")
    /\ (forall v, nested "context_window" "used_percentage" items = Some v ->
          context_percentage = py_or v (PInt 0))
    /\ (nested "context_window" "used_percentage" items = Some PNone ->
          context_percentage = PInt 0)
    /\ (nested "context_window" "used_percentage" items = None ->
          context_percentage = PInt 0).
Proof.
  unfold well_typed_payload, extract_fields, nested, py_get. intros H.
  apply andb_prop in H as [H Hcw]. apply andb_prop in H as [Hcwd Hmodel].
  destruct (lookup "cwd" items) as [[ | | | | s | | ]|]; try discriminate Hcwd;
  destruct (lookup "model" items) as [[ | | | | | | m]|];
    try discriminate Hmodel;
  destruct (lookup "context_window" items) as [[ | | | | | | c]|];
    try discriminate Hcw;
  cbn [bind basename];
  try destruct (lookup "display_name" m) as [dn|];
  try destruct (lookup "used_percentage" c) as [up|];
  do 3 eexists; (split; [reflexivity|]);
  repeat split; try discriminate; try reflexivity;
  try (intros ? [= <-]; reflexivity);
  try (intros [= ->]; reflexivity).
Qed.

(** The theorem at the payload of the end-to-end scenario. *)
Lemma extract_fields_defaults_witness :
  exists project model context_percentage,
    extract_fields sample_payload = Ok (project, model, context_percentage).
Proof.
  destruct (extract_fields_defaults
              [("cwd", PStr "/home/u/myproj");
               ("model", PDict [("display_name", PStr "Claude")]);
               ("context_window", PDict [("used_percentage", PInt 42)])]
              eq_refl)
    as [project [model [context_percentage [E _]]]].
  exists project, model, context_percentage. exact E.
Defined.

(** C3 as stated fails: a [cwd] that is not a string is rejected by
    [os.path.basename], a null [model] or [context_window] has no [get]. *)
Lemma extract_fields_ill_typed_raises :
  extract_fields (PDict [("cwd", PInt 5)]) = Raise TypeError
  /\ extract_fields (PDict [("model", PNone)]) = Raise AttributeError
  /\ extract_fields (PDict [("context_window", PStr "full")])
     = Raise AttributeError.
Proof. repeat split. Qed.

(** ** Input reader *)

Lemma exception_catches_all (e : pyexc) : caught_by [Exception] e = true.
Proof. destruct e; reflexivity. Qed.

(** Whatever is raised while standard input is read and decoded is caught
    and answered by the fallback line. *)
Lemma run_fallback
    (json_loads : string -> result pyval) (str_strip : string -> string)
    (py_repr : pyval -> string) (fromisoformat : string -> option datetime)
    (w : World) (e : pyexc) :
  stdin_read w = Raise e
  \/ (exists raw, stdin_read w = Ok raw /\ json_loads raw = Raise e) ->
  run json_loads str_strip py_repr fromisoformat w = Printed FALLBACK_LINE.
Proof.
  intros H. unfold run, main.
  destruct H as [H | [raw [H1 H2]]].
  - rewrite H. cbn [bind]. rewrite exception_catches_all. reflexivity.
  - rewrite H1. cbn [bind]. rewrite H2, exception_catches_all. reflexivity.
Qed.

(** C2, as amended. For every standard input whose reading or whose
    decoding by [json.loads] raises (empty input and malformed JSON do),
    the program prints exactly the fallback line and exits with status
    0. *)
Theorem fallback_on_undecodable_input
    (json_loads : string -> result pyval) (str_strip : string -> string)
    (py_repr : pyval -> string) (fromisoformat : string -> option datetime)
    (w : World) (e : pyexc) :
  stdin_read w = Raise e
  \/ (exists raw, stdin_read w = Ok raw /\ json_loads raw = Raise e) ->
  run json_loads str_strip py_repr fromisoformat w = Printed FALLBACK_LINE
  /\ exit_code (run json_loads str_strip py_repr fromisoformat w) = 0.
Proof.
  intros H.
  rewrite (run_fallback json_loads str_strip py_repr fromisoformat w e H).
  split; reflexivity.
Qed.

(** The theorem at the empty input, which no decoder accepts. *)
Lemma fallback_on_undecodable_input_witness :
  run (decoder_of []) sample_strip sample_repr sample_fromisoformat
    (world_with_stdin (Ok ""))
  = Printed FALLBACK_LINE.
Proof.
  refine (proj1 (fallback_on_undecodable_input (decoder_of []) sample_strip
            sample_repr sample_fromisoformat (world_with_stdin (Ok ""))
            JSONDecodeError _)).
  right. exists "". split; reflexivity.
Defined.

(** C2 as stated fails: the input [42] is valid JSON, [json.loads] returns
    the [int] and [data.get] raises outside the [try]; no fallback line is
    printed. *)
Lemma top_level_number_no_fallback :
  run (decoder_of [("42", PInt 42)]) sample_strip sample_repr
    sample_fromisoformat (world_with_stdin (Ok "42"))
  = Traceback AttributeError
  /\ run (decoder_of [("42", PInt 42)]) sample_strip sample_repr
       sample_fromisoformat (world_with_stdin (Ok "42"))
     <> Printed FALLBACK_LINE.
Proof. split; [reflexivity | discriminate]. Qed.

(** ** Credential locator *)

Lemma get_token_well_shaped (creds : pyval) :
  well_shaped_credentials creds = true ->
  (oauth <- py_get creds "claudeAiOauth" (PDict []) ;;
   py_get oauth "accessToken" PNone) = Ok (stored_token creds).
Proof.
  unfold well_shaped_credentials, stored_token, nested, py_get.
  destruct creds as [ | | | | | | items]; try discriminate.
  destruct (lookup "claudeAiOauth" items) as [[ | | | | | | oauth]|];
    try discriminate; intros _; reflexivity.
Qed.

(** C4, as amended. On a platform other than Darwin and Linux the locator
    returns absence unconditionally. On Linux it returns absence when
    opening the credentials file raises [FileNotFoundError] or decoding its
    text raises [JSONDecodeError]; on Darwin when the keychain command
    raises [CalledProcessError] or [TimeoutExpired], prints only blanks, or
    prints text whose decoding raises [JSONDecodeError]. When the stored
    text decodes to an object whose [claudeAiOauth] member, if present, is
    an object, it returns the [accessToken] of that member: the token
    string when one is stored, absence when there is none. Nothing is said
    of the other failures (an unreadable file, text that is not UTF-8, a
    decoding that raises another class, such as [RecursionError] on deep
    nesting, a top level that is not an object). *)
Theorem get_access_token_absorbs
    (json_loads : string -> result pyval) (str_strip : string -> string)
    (w : World) :
  (system w <> "Darwin" -> system w <> "Linux" ->
   get_access_token json_loads str_strip w = Ok PNone)
  /\ (system w = "Linux" ->
      (forall e, credentials_file w = Raise e ->
         issubclass e FileNotFoundError = true ->
         get_access_token json_loads str_strip w = Ok PNone)
      /\ (forall text e, credentials_file w = Ok text ->
           json_loads text = Raise e -> issubclass e JSONDecodeError = true ->
           get_access_token json_loads str_strip w = Ok PNone)
      /\ (forall text creds, credentials_file w = Ok text ->
           json_loads text = Ok creds -> well_shaped_credentials creds = true ->
           get_access_token json_loads str_strip w = Ok (stored_token creds)))
  /\ (system w = "Darwin" ->
      (forall e, keychain w = Raise e ->
         issubclass e CalledProcessError = true
         \/ issubclass e TimeoutExpired = true ->
         get_access_token json_loads str_strip w = Ok PNone)
      /\ (forall out, keychain w = Ok out -> str_strip out = "" ->
           get_access_token json_loads str_strip w = Ok PNone)
      /\ (forall out e, keychain w = Ok out -> str_strip out <> "" ->
           json_loads (str_strip out) = Raise e ->
           issubclass e JSONDecodeError = true ->
           get_access_token json_loads str_strip w = Ok PNone)
      /\ (forall out creds, keychain w = Ok out -> str_strip out <> "" ->
           json_loads (str_strip out) = Ok creds ->
           well_shaped_credentials creds = true ->
           get_access_token json_loads str_strip w = Ok (stored_token creds)))
  /\ (forall items t,
        nested "claudeAiOauth" "accessToken" items = Some (PStr t) ->
        stored_token (PDict items) = PStr t)
  /\ (forall items,
        nested "claudeAiOauth" "accessToken" items = None ->
        stored_token (PDict items) = PNone).
Proof.
  unfold get_access_token.
  split; [|split; [|split; [|split]]].
  - intros HD HL.
    destruct (String.eqb_spec (system w) "Darwin"); [contradiction|].
    destruct (String.eqb_spec (system w) "Linux"); [contradiction|].
    reflexivity.
  - intros HL. rewrite HL. cbn [String.eqb Ascii.eqb Bool.eqb].
    unfold get_access_token_linux, try_except.
    split; [|split].
    + intros e E He. rewrite E. cbn [bind]. unfold caught_by. cbn [existsb].
      rewrite He. reflexivity.
    + intros text e E1 E2 He. rewrite E1. cbn [bind]. rewrite E2.
      cbn [bind]. unfold caught_by. cbn [existsb]. rewrite He, orb_true_r. reflexivity.
    + intros text creds E1 E2 Hshape. rewrite E1. cbn [bind]. rewrite E2.
      cbn [bind]. rewrite (get_token_well_shaped creds Hshape). reflexivity.
  - intros HD. rewrite HD. cbn [String.eqb Ascii.eqb Bool.eqb].
    unfold get_access_token_macos, try_except.
    split; [|split; [|split]].
    + intros e E He. rewrite E. cbn [bind]. unfold caught_by. cbn [existsb].
      destruct He as [He | He]; rewrite He, ?orb_true_r; reflexivity.
    + intros out E Hblank. rewrite E. cbn [bind]. rewrite Hblank. reflexivity.
    + intros out e E Hnb E2 He. rewrite E. cbn [bind].
      assert (Ht : truthy (PStr (str_strip out)) = true).
      { simpl. destruct (String.eqb_spec (str_strip out) "");
          [contradiction|reflexivity]. }
      rewrite Ht, E2. cbn [bind]. unfold caught_by. cbn [existsb].
      rewrite He, ?orb_true_r. reflexivity.
    + intros out creds E Hnb E2 Hshape. rewrite E. cbn [bind].
      assert (Ht : truthy (PStr (str_strip out)) = true).
      { simpl. destruct (String.eqb_spec (str_strip out) "");
          [contradiction|reflexivity]. }
      rewrite Ht, E2. cbn [bind].
      rewrite (get_token_well_shaped creds Hshape). reflexivity.
  - intros items t E. unfold stored_token. rewrite E. reflexivity.
  - intros items E. unfold stored_token. rewrite E. reflexivity.
Qed.

(** The theorem on the sample host, whose credentials file is missing. *)
Lemma get_access_token_absorbs_witness :
  get_access_token (decoder_of []) sample_strip sample_world = Ok PNone.
Proof.
  refine (proj1 (proj1 (proj2 (get_access_token_absorbs (decoder_of [])
            sample_strip sample_world)) eq_refl) FileNotFoundError
            eq_refl eq_refl).
Defined.

(** C4 as stated fails: a credentials file holding the JSON text [[]]
    decodes to a list, which has no [get], and an unreadable file makes
    [open] raise [PermissionError]; neither is named by the [except]
    clause. *)
Lemma get_access_token_unhandled_raises :
  get_access_token (decoder_of [("[]", PList [])]) sample_strip
    (sample_host (Ok "") (Ok "[]") (fun _ => Raise URLError))
  = Raise AttributeError
  /\ get_access_token (decoder_of []) sample_strip
       (sample_host (Ok "") (Raise PermissionError) (fun _ => Raise URLError))
     = Raise PermissionError.
Proof. split; reflexivity. Qed.

(** ** Usage fetcher *)

(** C5, as amended. The fetcher returns [None] when the request raises
    [URLError] (a network error, or a status that is not 2xx, which urllib
    raises as [HTTPError], a subclass) or [TimeoutError], and when the body
    is UTF-8 text on which [json.loads] raises [JSONDecodeError]; when the
    body is UTF-8 text that [json.loads] decodes it returns the decoded
    value. Nothing is said of the other failures (a body that is not UTF-8,
    a decoding that raises another class, such as [RecursionError] on deep
    nesting or a plain [ValueError] on an integer literal beyond the digit
    limit, another exception of the request). *)
Theorem fetch_usage_absorbs
    (json_loads : string -> result pyval) (py_repr : pyval -> string)
    (w : World) (access_token : pyval) :
  let request := usage_api w ("Bearer " ++ py_str py_repr access_token) in
  issubclass HTTPError URLError = true
  /\ (forall e, request = Raise e ->
        issubclass e URLError = true \/ issubclass e TimeoutError = true ->
        fetch_usage json_loads py_repr w access_token = Ok PNone)
  /\ (forall body e, request = Ok body ->
        utf8_valid (byte_codes body) = true ->
        json_loads body = Raise e -> issubclass e JSONDecodeError = true ->
        fetch_usage json_loads py_repr w access_token = Ok PNone)
  /\ (forall body usage, request = Ok body ->
        utf8_valid (byte_codes body) = true ->
        json_loads body = Ok usage ->
        fetch_usage json_loads py_repr w access_token = Ok usage).
Proof.
  intros request. unfold fetch_usage, try_except. fold request.
  split; [reflexivity|split; [|split]].
  - intros e E He. rewrite E. cbn [bind]. unfold caught_by. cbn [existsb].
    destruct He as [He | He]; rewrite He, ?orb_true_r; reflexivity.
  - intros body e E Hutf E2 He. rewrite E. cbn [bind].
    unfold bytes_decode. rewrite Hutf. cbn [bind]. rewrite E2.
    unfold caught_by. cbn [existsb]. rewrite He, ?orb_true_r. reflexivity.
  - intros body usage E Hutf E2. rewrite E. cbn [bind].
    unfold bytes_decode. rewrite Hutf. cbn [bind]. rewrite E2. reflexivity.
Qed.

(** The theorem on the sample host answering 401: [HTTPError]. *)
Lemma fetch_usage_absorbs_witness :
  fetch_usage (decoder_of []) sample_repr
    (sample_host (Ok "") (Raise FileNotFoundError) (fun _ => Raise HTTPError))
    (PStr "token")
  = Ok PNone.
Proof.
  refine (proj1 (proj2 (fetch_usage_absorbs (decoder_of []) sample_repr
            (sample_host (Ok "") (Raise FileNotFoundError)
               (fun _ => Raise HTTPError))
            (PStr "token"))) HTTPError eq_refl (or_introl eq_refl)).
Defined.

(** C5 as stated fails: a body that is not UTF-8 (the single byte 0xFF)
    makes [resp.read().decode()] raise [UnicodeDecodeError], a [ValueError]
    that is not a [JSONDecodeError]; the [except] clause lets it through. *)
Lemma fetch_usage_undecodable_body_raises :
  fetch_usage (decoder_of []) sample_repr
    (sample_host (Ok "") (Raise FileNotFoundError)
       (fun _ => Ok (String "255"%char EmptyString)))
    (PStr "token")
  = Raise UnicodeDecodeError.
Proof. reflexivity. Qed.

(** ** Line assembly *)

Lemma append_assoc (a b c : string) : (a ++ b) ++ c = a ++ (b ++ c).
Proof. induction a as [|x a IH]; simpl; [reflexivity | now rewrite IH]. Qed.

(** [run] once standard input has been decoded. *)
Lemma run_decoded
    (json_loads : string -> result pyval) (str_strip : string -> string)
    (py_repr : pyval -> string) (fromisoformat : string -> option datetime)
    (w : World) (raw : string) (data : pyval)
    (fields : string * pyval * pyval) :
  stdin_read w = Ok raw -> json_loads raw = Ok data ->
  extract_fields data = Ok fields ->
  run json_loads str_strip py_repr fromisoformat w
  = match fst (main_line json_loads str_strip py_repr fromisoformat w
                 fields 0%nat) with
    | Ok line => Printed line
    | Raise e => Traceback e
    end.
Proof.
  intros E1 E2 E3. unfold run, main. rewrite E1. cbn [bind]. rewrite E2.
  unfold bindM, lift. rewrite E3. reflexivity.
Qed.

(** C8. The printed line is [<project> | <colored model> | Ctx: <colored
    context%> | <usage>], where the usage segment is the red placeholder
    "No credentials" when the locator returns no (or an empty) token, the
    red placeholder "Usage: N/A" when the fetch returns nothing, and
    otherwise [5h: <colored 5h%><5h reset> | 7d: <colored 7d%><7d reset>].
    The payload of the end-to-end scenario with no credential gives
    [myproj], the model name, 42% in green and the "No credentials"
    placeholder, in that order. *)
Theorem main_line_assembly
    (json_loads : string -> result pyval) (str_strip : string -> string)
    (py_repr : pyval -> string) (fromisoformat : string -> option datetime)
    (w : World) (raw : string) (data : pyval)
    (project : string) (model context_percentage : pyval)
    (color digits : string) :
  stdin_read w = Ok raw -> json_loads raw = Ok data ->
  extract_fields data = Ok (project, model, context_percentage) ->
  get_usage_color context_percentage = Ok color ->
  format_0f context_percentage = Ok digits ->
  let head := project ++ " | " ++ BLUE ++ py_str py_repr model ++ RESET
              ++ " | Ctx: " ++ (color ++ digits ++ "%" ++ RESET) ++ " | " in
  let printed := run json_loads str_strip py_repr fromisoformat w in
  (forall token,
     get_access_token json_loads str_strip w = Ok token ->
     truthy token = false ->
     printed = Printed (head ++ RED ++ "No credentials" ++ RESET))
  /\ (forall token usage,
        get_access_token json_loads str_strip w = Ok token ->
        truthy token = true ->
        fetch_usage json_loads py_repr w token = Ok usage ->
        truthy usage = false ->
        printed = Printed (head ++ RED ++ "Usage: N/A" ++ RESET))
  /\ (forall token usage five seven u5 u7 t5 t7 c5 c7 r5 r7 k5 k7,
        get_access_token json_loads str_strip w = Ok token ->
        truthy token = true ->
        fetch_usage json_loads py_repr w token = Ok usage ->
        truthy usage = true ->
        py_get usage "five_hour" (PDict []) = Ok five ->
        py_get usage "seven_day" (PDict []) = Ok seven ->
        py_get five "utilization" (PInt 0) = Ok u5 ->
        py_get seven "utilization" (PInt 0) = Ok u7 ->
        py_get five "resets_at" PNone = Ok t5 ->
        py_get seven "resets_at" PNone = Ok t7 ->
        format_reset_time fromisoformat w t5 0%nat = (Ok r5, k5) ->
        format_reset_time fromisoformat w t7 k5 = (Ok r7, k7) ->
        colored_percentage (py_or u5 (PInt 0)) = Ok c5 ->
        colored_percentage (py_or u7 (PInt 0)) = Ok c7 ->
        printed = Printed (head ++ "5h: " ++ (c5 ++ r5) ++ " | 7d: "
                           ++ (c7 ++ r7)))
  /\ (raw = sample_payload_text -> data = sample_payload ->
      forall token,
        get_access_token json_loads str_strip w = Ok token ->
        truthy token = false ->
        printed = Printed ("myproj | " ++ BLUE ++ "Claude" ++ RESET
                           ++ " | Ctx: " ++ tier_color Low ++ "42%" ++ RESET
                           ++ " | " ++ RED ++ "No credentials" ++ RESET)).
Proof.
  intros E1 E2 E3 Hc Hd head printed.
  assert (Hctx : colored_percentage context_percentage
                 = Ok (color ++ digits ++ "%" ++ RESET)).
  { unfold colored_percentage. rewrite Hc, Hd. reflexivity. }
  assert (Hrun : printed
                 = match fst (main_line json_loads str_strip py_repr
                                fromisoformat w
                                (project, model, context_percentage) 0%nat)
                   with
                   | Ok line => Printed line
                   | Raise e => Traceback e
                   end).
  { apply run_decoded with (raw := raw) (data := data); assumption. }
  assert (Hnone : forall token,
            get_access_token json_loads str_strip w = Ok token ->
            truthy token = false ->
            printed = Printed (head ++ RED ++ "No credentials" ++ RESET)).
  { intros token Et Ht. rewrite Hrun. unfold main_line, bindM, lift, retM.
    rewrite Et, Ht, Hctx. cbn [fst]. unfold head.
    rewrite !append_assoc. reflexivity. }
  split; [exact Hnone|split; [|split]].
  - intros token usage Et Ht Eu Hu. rewrite Hrun.
    unfold main_line, bindM, lift, retM. rewrite Et, Ht, Eu.
    unfold format_usage. rewrite Hu. cbn [negb]. unfold retM.
    rewrite Hctx. cbn [fst]. unfold head.
    rewrite !append_assoc. reflexivity.
  - intros token usage five seven u5 u7 t5 t7 c5 c7 r5 r7 k5 k7
      Et Ht Eu Hu E5 E7 Eu5 Eu7 Et5 Et7 Er5 Er7 Ec5 Ec7.
    rewrite Hrun. unfold main_line, bindM, lift, retM. rewrite Et, Ht, Eu.
    unfold format_usage. rewrite Hu. cbn [negb]. unfold bindM, lift, retM.
    rewrite E5, E7, Eu5, Eu7, Et5, Er5, Et7, Er7, Ec5, Ec7, Hctx.
    cbn [fst]. unfold head. rewrite !append_assoc. reflexivity.
  - intros -> -> token Et Ht. rewrite (Hnone token Et Ht).
    injection E3 as <- <- <-. injection Hc as <-. injection Hd as <-.
    reflexivity.
Qed.

(** The theorem on the sample host, which has no credentials file. *)
Lemma main_line_assembly_witness :
  run (decoder_of [(sample_payload_text, sample_payload)]) sample_strip
    sample_repr sample_fromisoformat sample_world
  = Printed ("myproj | " ++ BLUE ++ "Claude" ++ RESET
             ++ " | Ctx: " ++ tier_color Low ++ "42%" ++ RESET
             ++ " | " ++ RED ++ "No credentials" ++ RESET).
Proof.
  refine (proj2 (proj2 (proj2 (main_line_assembly
            (decoder_of [(sample_payload_text, sample_payload)]) sample_strip
            sample_repr sample_fromisoformat sample_world
            sample_payload_text sample_payload "myproj" (PStr "Claude")
            (PInt 42) GREEN "42" eq_refl eq_refl eq_refl eq_refl eq_refl)))
          eq_refl eq_refl PNone eq_refl eq_refl).
Defined.

(** ** No exception on input of the documented shape *)

Lemma colored_percentage_displayable (v : pyval) :
  displayable v = true ->
  exists s, colored_percentage (py_or v (PInt 0)) = Ok s.
Proof.
  unfold displayable. destruct (py_or v (PInt 0)) as [ | b | z | f | | | ];
    try discriminate; intros H; unfold colored_percentage, get_usage_color.
  - destruct b; eexists; reflexivity.
  - cbn [py_ge bind format_0f].
    destruct (float_of_int z) as [f | e]; [|discriminate H].
    destruct (USAGE_THRESHOLD_HIGH <=? z); cbn [bind];
      [|destruct (USAGE_THRESHOLD_MEDIUM <=? z)]; eexists; reflexivity.
  - cbn [py_ge bind format_0f].
    destruct (float_ge_int f USAGE_THRESHOLD_HIGH); cbn [bind];
      [|destruct (float_ge_int f USAGE_THRESHOLD_MEDIUM)];
      eexists; reflexivity.
Qed.

Lemma format_reset_time_ok (fromisoformat : string -> option datetime)
    (w : World) (v : pyval) (k : nat) :
  timestamp_ok v = true ->
  exists s k', format_reset_time fromisoformat w v k = (Ok s, k').
Proof.
  unfold timestamp_ok. intros H.
  destruct (truthy v) eqn:Ht.
  - destruct v as [ | | | | s | | ]; try discriminate H.
    assert (Hs : s <> "").
    { intros ->. discriminate Ht. }
    rewrite (format_reset_time_str fromisoformat w s k Hs).
    destruct (fromisoformat (iso_text s)) as [dt|].
    + rewrite render_delta_spec. do 2 eexists. reflexivity.
    + do 2 eexists. reflexivity.
  - unfold format_reset_time. rewrite Ht. do 2 eexists. reflexivity.
Qed.

Lemma format_usage_ok (fromisoformat : string -> option datetime)
    (w : World) (usage : pyval) (k : nat) :
  usage_ok usage = true ->
  exists s k', format_usage fromisoformat w usage k = (Ok s, k').
Proof.
  unfold usage_ok, format_usage. intros H.
  destruct (truthy usage) eqn:Ht; cbn [negb orb] in *;
    [|do 2 eexists; reflexivity].
  destruct usage as [ | | | | | | items]; try discriminate H.
  apply andb_prop in H as [H5 H7].
  unfold bindM, lift, retM, py_get at 1 2.
  set (five := match lookup "five_hour" items with
               | Some v => v
               | None => PDict []
               end) in *.
  set (seven := match lookup "seven_day" items with
                | Some v => v
                | None => PDict []
                end) in *.
  destruct five as [ | | | | | | i5]; try discriminate H5.
  destruct seven as [ | | | | | | i7]; try discriminate H7.
  cbn [py_get]. cbn [window_ok] in H5, H7.
  apply andb_prop in H5 as [Hd5 Ht5]. apply andb_prop in H7 as [Hd7 Ht7].
  destruct (format_reset_time_ok fromisoformat w _ k Ht5) as [r5 [k5 E5]].
  rewrite E5.
  destruct (format_reset_time_ok fromisoformat w _ k5 Ht7) as [r7 [k7 E7]].
  rewrite E7.
  destruct (colored_percentage_displayable _ Hd5) as [c5 Ec5]. rewrite Ec5.
  destruct (colored_percentage_displayable _ Hd7) as [c7 Ec7]. rewrite Ec7.
  do 2 eexists. reflexivity.
Qed.

(** C1, as amended. When reading standard input or decoding it raises, the
    program hands the fallback line to [print]. When the input decodes to
    an object of the documented shape ([cwd] a string, [model] and
    [context_window] objects, where present; [used_percentage] absent,
    null, a float, a bool or an int that converts to float without
    overflow), the credential locator returns, and the usage fetcher, if a
    token was found, returns nothing or usage data of the documented shape,
    the program hands one status line to [print]. In both cases, when
    standard output accepts the line, the line is printed and the exit
    status is 0. *)
Theorem run_prints_line
    (stdout_write : string -> result unit)
    (json_loads : string -> result pyval) (str_strip : string -> string)
    (py_repr : pyval -> string) (fromisoformat : string -> option datetime)
    (w : World) :
  let handed :=
    fst (main json_loads str_strip py_repr fromisoformat w 0%nat) in
  let printed :=
    run_process stdout_write json_loads str_strip py_repr fromisoformat w in
  (forall e,
     stdin_read w = Raise e
     \/ (exists raw, stdin_read w = Ok raw /\ json_loads raw = Raise e) ->
     handed = Ok FALLBACK_LINE
     /\ (stdout_write FALLBACK_LINE = Ok tt ->
         printed = Printed FALLBACK_LINE /\ exit_code printed = 0))
  /\ (forall raw items token,
        stdin_read w = Ok raw -> json_loads raw = Ok (PDict items) ->
        well_typed_payload (PDict items) = true ->
        displayable match nested "context_window" "used_percentage" items with
                    | Some v => v
                    | None => PInt 0
                    end = true ->
        get_access_token json_loads str_strip w = Ok token ->
        (truthy token = true ->
         exists usage, fetch_usage json_loads py_repr w token = Ok usage
                       /\ usage_ok usage = true) ->
        exists line,
          handed = Ok line
          /\ (stdout_write line = Ok tt ->
              printed = Printed line /\ exit_code printed = 0)).
Proof.
  intros handed printed.
  assert (Hprint : forall line, handed = Ok line ->
            stdout_write line = Ok tt ->
            printed = Printed line /\ exit_code printed = 0).
  { intros line E Hw. unfold printed, run_process. fold handed.
    rewrite E, Hw. split; reflexivity. }
  split.
  - intros e H.
    assert (E : handed = Ok FALLBACK_LINE).
    { pose proof (run_fallback json_loads str_strip py_repr fromisoformat
                    w e H) as Hrun.
      unfold run in Hrun. fold handed in Hrun.
      destruct handed as [line | e']; [|discriminate Hrun].
      injection Hrun as ->. reflexivity. }
    split; [exact E | apply Hprint, E].
  - intros raw items token E1 E2 Hty Hdisp Et Hfetch.
    assert (Hfields : exists project model v,
              extract_fields (PDict items)
              = Ok (project, model, py_or v (PInt 0))
              /\ displayable v = true).
    { revert Hty Hdisp.
      unfold well_typed_payload, extract_fields, nested, py_get.
      intros H. apply andb_prop in H as [H Hcw].
      apply andb_prop in H as [Hcwd Hmodel].
      destruct (lookup "cwd" items) as [[ | | | | s | | ]|];
        try discriminate Hcwd;
      destruct (lookup "model" items) as [[ | | | | | | m]|];
        try discriminate Hmodel;
      destruct (lookup "context_window" items) as [[ | | | | | | c]|];
        try discriminate Hcw;
      cbn [bind basename]; intros Hdisp;
      try destruct (lookup "used_percentage" c) as [up|];
      do 3 eexists; (split; [reflexivity|exact Hdisp]). }
    destruct Hfields as [project [model [v [E3 Hv]]]].
    destruct (colored_percentage_displayable v Hv) as [ctx Ectx].
    assert (Hline : exists line,
              fst (main_line json_loads str_strip py_repr fromisoformat w
                     (project, model, py_or v (PInt 0)) 0%nat) = Ok line).
    { unfold main_line, bindM, lift, retM. rewrite Et.
      destruct (truthy token) eqn:Ht.
      - destruct (Hfetch eq_refl) as [usage [Eu Hu]]. rewrite Eu.
        destruct (format_usage_ok fromisoformat w usage 0%nat Hu)
          as [s [k' Ef]].
        rewrite Ef, Ectx. eexists. reflexivity.
      - rewrite Ectx. eexists. reflexivity. }
    destruct Hline as [line Eline].
    exists line.
    assert (E : handed = Ok line).
    { pose proof (run_decoded json_loads str_strip py_repr fromisoformat w
                    raw (PDict items) _ E1 E2 E3) as Hrun.
      rewrite Eline in Hrun. unfold run in Hrun. fold handed in Hrun.
      destruct handed as [line' | e']; [|discriminate Hrun].
      injection Hrun as ->. reflexivity. }
    split; [exact E | apply Hprint, E].
Qed.

(** The theorem on the sample host: the payload of the end-to-end scenario,
    no credentials file and a standard output that accepts every line. *)
Lemma run_prints_line_witness :
  exists line,
    fst (main (decoder_of [(sample_payload_text, sample_payload)])
           sample_strip sample_repr sample_fromisoformat sample_world 0%nat)
    = Ok line
    /\ (accepting_stdout line = Ok tt ->
        run_process accepting_stdout
          (decoder_of [(sample_payload_text, sample_payload)]) sample_strip
          sample_repr sample_fromisoformat sample_world = Printed line
        /\ exit_code
             (run_process accepting_stdout
                (decoder_of [(sample_payload_text, sample_payload)])
                sample_strip sample_repr sample_fromisoformat sample_world)
           = 0).
Proof.
  refine (proj2 (run_prints_line accepting_stdout
            (decoder_of [(sample_payload_text, sample_payload)]) sample_strip
            sample_repr sample_fromisoformat sample_world)
          sample_payload_text _ PNone eq_refl eq_refl eq_refl eq_refl eq_refl
          _).
  intros H. discriminate H.
Defined.

(** C1 as stated fails: on the input [[1, 2]], valid JSON, [json.loads]
    returns a list, [data.get] raises [AttributeError] outside every [try],
    nothing is printed and the interpreter exits with status 1, even with a
    standard output that accepts every line. *)
Lemma top_level_list_traceback :
  run_process accepting_stdout
    (decoder_of [("[1, 2]", PList [PInt 1; PInt 2])]) sample_strip
    sample_repr sample_fromisoformat (world_with_stdin (Ok "[1, 2]"))
  = Traceback AttributeError
  /\ exit_code
       (run_process accepting_stdout
          (decoder_of [("[1, 2]", PList [PInt 1; PInt 2])]) sample_strip
          sample_repr sample_fromisoformat (world_with_stdin (Ok "[1, 2]")))
     = 1.
Proof. split; reflexivity. Qed.

(** ** The percentages of the line *)

Lemma format_0f_rounded (p : pyval) (digits : string) :
  roundable p = true -> format_0f p = Ok digits -> shows_rounded p digits.
Proof.
  unfold shows_rounded.
  destruct p as [ | b | z | f | | | ]; try discriminate.
  - intros _. destruct b; intros [= <-].
    + exists false, (Real 1 0), 1. repeat split; unfold xle; simpl; lia.
    + exists false, (Real 0 0), 0. repeat split; unfold xle; simpl; lia.
  - intros Hz E. apply Z.ltb_lt in Hz.
    rewrite (format_0f_int_small z Hz) in E. injection E as <-.
    exists (z <? 0), (Real (Z.abs z) 0), (Z.abs z).
    split; [reflexivity|split; [|reflexivity]].
    unfold nearest_integer, xle.
    change (Z.max 0 (- -1)) with 1. change (Z.max 0 (-1)) with 0.
    change (Z.max 0 (- 0)) with 0. change (Z.max 0 0) with 0.
    change (2 ^ 0) with 1. change (2 ^ 1) with 2. lia.
  - destruct f as [ | neg | neg m e]; try discriminate.
    intros _ [= <-].
    destruct (format_float_0f_nearest neg m e) as [n [E Hnear]].
    exists neg, (Real (Z.of_N m) e), n.
    split; [reflexivity|split; [exact Hnear|exact E]].
Qed.

(** Each colored percentage is the color of the raw value followed by its
    rounded digits. *)
Lemma colored_percentage_displayed (p : pyval) (s : string) :
  colored_percentage p = Ok s ->
  exists color digits,
    s = color ++ digits ++ "%" ++ RESET /\ displayed_as p color digits.
Proof.
  unfold colored_percentage. intros H.
  destruct (get_usage_color p) as [color | e] eqn:Ec; [|discriminate H].
  cbn [bind] in H.
  destruct (format_0f p) as [digits | e] eqn:Ed; [|discriminate H].
  cbn [bind] in H. injection H as <-.
  exists color, digits. split; [reflexivity|].
  split; [exact Ec|split; [exact Ed|split]].
  - intros Hr. apply format_0f_rounded; assumption.
  - intros x Hn H1 H2. split.
    + destruct (get_usage_color_cases p x Hn)
        as [[H80 E] | [[H80 [H50 E]] | [H50 E]]].
      * exfalso. apply H2, H80.
      * rewrite E in Ec. injection Ec as <-. reflexivity.
      * exfalso. apply H50.
        apply xle_trans_int with (x := x79_5); [|exact H1].
        unfold of_int, x79_5, xle. simpl. lia.
    + pose proof (format_0f_just_below_80 p x Hn H1 H2) as E.
      rewrite E in Ed. injection Ed as <-. reflexivity.
Qed.

(** What [format_usage] returns for usage data that is a true value: the
    two windows, each with its colored percentage. *)
Lemma format_usage_windows
    (fromisoformat : string -> option datetime) (w : World)
    (usage : pyval) (k k' : nat) (out : string) :
  truthy usage = true ->
  format_usage fromisoformat w usage k = (Ok out, k') ->
  exists items i5 i7 c5 d5 r5 c7 d7 r7,
    usage = PDict items
    /\ member "five_hour" (PDict []) items = PDict i5
    /\ member "seven_day" (PDict []) items = PDict i7
    /\ out = "5h: " ++ ((c5 ++ d5 ++ "%" ++ RESET) ++ r5)
             ++ " | 7d: " ++ ((c7 ++ d7 ++ "%" ++ RESET) ++ r7)
    /\ displayed_as (py_or (member "utilization" (PInt 0) i5) (PInt 0)) c5 d5
    /\ displayed_as (py_or (member "utilization" (PInt 0) i7) (PInt 0)) c7 d7.
Proof.
  intros Ht H. unfold format_usage in H. rewrite Ht in H. cbn [negb] in H.
  unfold bindM, lift, retM in H.
  destruct usage as [ | | | | | | items]; try discriminate H.
  cbn [py_get] in H.
  fold (member "five_hour" (PDict []) items) in H.
  fold (member "seven_day" (PDict []) items) in H.
  destruct (member "five_hour" (PDict []) items)
    as [ | | | | | | i5] eqn:E5; try discriminate H.
  destruct (member "seven_day" (PDict []) items)
    as [ | | | | | | i7] eqn:E7; try discriminate H.
  cbn [py_get] in H.
  fold (member "utilization" (PInt 0) i5) in H.
  fold (member "utilization" (PInt 0) i7) in H.
  destruct (format_reset_time fromisoformat w _ k) as [[r5 | e] k5];
    [|discriminate H].
  destruct (format_reset_time fromisoformat w _ k5) as [[r7 | e] k7];
    [|discriminate H].
  destruct (colored_percentage
              (py_or (member "utilization" (PInt 0) i5) (PInt 0)))
    as [s5 | e] eqn:Ec5; [|discriminate H].
  destruct (colored_percentage
              (py_or (member "utilization" (PInt 0) i7) (PInt 0)))
    as [s7 | e] eqn:Ec7; [|discriminate H].
  injection H as <- <-.
  destruct (colored_percentage_displayed _ _ Ec5) as [c5 [d5 [-> H5]]].
  destruct (colored_percentage_displayed _ _ Ec7) as [c7 [d7 [-> H7]]].
  exists items, i5, i7, c5, d5, r5, c7, d7, r7.
  split; [reflexivity|split; [exact E5|split; [exact E7|]]].
  split; [reflexivity|split; assumption].
Qed.

(** C10, as amended. Every percentage of the printed line (context window,
    5-hour, 7-day) is the color chosen from the raw value followed by
    [format(p, ".0f")]; for a finite float, a [bool] and an [int] below
    2^53 in magnitude these digits are the sign and a whole number nearest
    to the magnitude. Consequently for every [p] with [79.5 <= p < 80] the
    line displays "80%" in the color of the medium tier, not of the high
    one. *)
Theorem line_displays_rounded_colored_raw
    (json_loads : string -> result pyval) (str_strip : string -> string)
    (py_repr : pyval -> string) (fromisoformat : string -> option datetime)
    (w : World) (raw : string) (data : pyval)
    (project : string) (model p : pyval) (line : string) :
  stdin_read w = Ok raw -> json_loads raw = Ok data ->
  extract_fields data = Ok (project, model, p) ->
  run json_loads str_strip py_repr fromisoformat w = Printed line ->
  (exists color digits usage_str token,
     line = project ++ " | " ++ BLUE ++ py_str py_repr model ++ RESET
            ++ " | Ctx: " ++ (color ++ digits ++ "%" ++ RESET) ++ " | "
            ++ usage_str
     /\ displayed_as p color digits
     /\ get_access_token json_loads str_strip w = Ok token
     /\ (truthy token = false ->
         usage_str = RED ++ "No credentials" ++ RESET)
     /\ (truthy token = true ->
         exists usage k,
           fetch_usage json_loads py_repr w token = Ok usage
           /\ format_usage fromisoformat w usage 0%nat = (Ok usage_str, k)))
  /\ (forall usage k k' out,
        truthy usage = true ->
        format_usage fromisoformat w usage k = (Ok out, k') ->
        exists items i5 i7 c5 d5 r5 c7 d7 r7,
          usage = PDict items
          /\ member "five_hour" (PDict []) items = PDict i5
          /\ member "seven_day" (PDict []) items = PDict i7
          /\ out = "5h: " ++ ((c5 ++ d5 ++ "%" ++ RESET) ++ r5)
                   ++ " | 7d: " ++ ((c7 ++ d7 ++ "%" ++ RESET) ++ r7)
          /\ displayed_as
               (py_or (member "utilization" (PInt 0) i5) (PInt 0)) c5 d5
          /\ displayed_as
               (py_or (member "utilization" (PInt 0) i7) (PInt 0)) c7 d7).
Proof.
  intros E1 E2 E3 Hrun. split.
  - rewrite (run_decoded json_loads str_strip py_repr fromisoformat w raw
               data _ E1 E2 E3) in Hrun.
    unfold main_line, bindM, lift, retM in Hrun.
    destruct (get_access_token json_loads str_strip w) as [token | e] eqn:Et;
      [|discriminate Hrun].
    destruct (truthy token) eqn:Ht.
    + destruct (fetch_usage json_loads py_repr w token) as [usage | e] eqn:Eu;
        [|discriminate Hrun].
      destruct (format_usage fromisoformat w usage 0%nat)
        as [[usage_str | e] k] eqn:Ef; [|discriminate Hrun].
      destruct (colored_percentage p) as [ctx | e] eqn:Ec;
        [|discriminate Hrun].
      cbn [fst] in Hrun. injection Hrun as <-.
      destruct (colored_percentage_displayed p ctx Ec) as [c [d [-> Hd]]].
      exists c, d, usage_str, token.
      split; [reflexivity|split; [exact Hd|split; [reflexivity|split]]].
      * intros Hf. congruence.
      * intros _. exists usage, k.
        split; first [reflexivity | assumption].
    + destruct (colored_percentage p) as [ctx | e] eqn:Ec;
        [|discriminate Hrun].
      cbn [fst] in Hrun. injection Hrun as <-.
      destruct (colored_percentage_displayed p ctx Ec) as [c [d [-> Hd]]].
      exists c, d, (RED ++ "No credentials" ++ RESET), token.
      split; [reflexivity|split; [exact Hd|split; [reflexivity|split]]].
      * reflexivity.
      * intros Hf. congruence.
  - intros usage k k' out Ht H.
    exact (format_usage_windows fromisoformat w usage k k' out Ht H).
Qed.

(** The theorem for the payload whose context usage is 79.75 = 319 * 2^-2,
    on the host without credentials: the line shows "80%" in yellow. *)
Lemma line_displays_rounded_colored_raw_witness :
  exists color digits usage_str token,
    "" ++ " | " ++ BLUE ++ "" ++ RESET ++ " | Ctx: "
    ++ (YELLOW ++ "80" ++ "%" ++ RESET) ++ " | "
    ++ RED ++ "No credentials" ++ RESET
    = "" ++ " | " ++ BLUE ++ py_str sample_repr (PStr "") ++ RESET
      ++ " | Ctx: " ++ (color ++ digits ++ "%" ++ RESET) ++ " | "
      ++ usage_str
    /\ displayed_as (PFloat (FFin false 319 (-2))) color digits
    /\ get_access_token
         (decoder_of [(payload_text_of "79.75",
                       payload_of (PFloat (FFin false 319 (-2))))])
         sample_strip (world_with_stdin (Ok (payload_text_of "79.75")))
       = Ok token
    /\ (truthy token = false ->
        usage_str = RED ++ "No credentials" ++ RESET)
    /\ (truthy token = true ->
        exists usage k,
          fetch_usage
            (decoder_of [(payload_text_of "79.75",
                          payload_of (PFloat (FFin false 319 (-2))))])
            sample_repr (world_with_stdin (Ok (payload_text_of "79.75")))
            token
          = Ok usage
          /\ format_usage sample_fromisoformat
               (world_with_stdin (Ok (payload_text_of "79.75"))) usage 0%nat
             = (Ok usage_str, k)).
Proof.
  exact (proj1 (line_displays_rounded_colored_raw
                  (decoder_of [(payload_text_of "79.75",
                                payload_of (PFloat (FFin false 319 (-2))))])
                  sample_strip sample_repr sample_fromisoformat
                  (world_with_stdin (Ok (payload_text_of "79.75")))
                  (payload_text_of "79.75")
                  (payload_of (PFloat (FFin false 319 (-2))))
                  "" (PStr "") (PFloat (FFin false 319 (-2)))
                  ("" ++ " | " ++ BLUE ++ "" ++ RESET ++ " | Ctx: "
                   ++ (YELLOW ++ "80" ++ "%" ++ RESET) ++ " | "
                   ++ RED ++ "No credentials" ++ RESET)
                  eq_refl eq_refl eq_refl eq_refl)).
Defined.

(** C10 as stated fails for a large [int]: a context usage of 2^53 + 1 is
    first rounded to a float by [".0f"], and the line displays
    "9007199254740992%", which is not the value rounded to the nearest
    whole number, the value being whole already. *)
Lemma big_int_not_rounded :
  run (decoder_of [(payload_text_of "9007199254740993",
                    payload_of (PInt 9007199254740993))])
    sample_strip sample_repr sample_fromisoformat
    (world_with_stdin (Ok (payload_text_of "9007199254740993")))
  = Printed ("" ++ " | " ++ BLUE ++ "" ++ RESET ++ " | Ctx: "
             ++ (RED ++ "9007199254740992" ++ "%" ++ RESET) ++ " | "
             ++ RED ++ "No credentials" ++ RESET)
  /\ ~ nearest_integer (of_int 9007199254740993) 9007199254740992.
Proof.
  split; [vm_compute; reflexivity|].
  unfold nearest_integer, of_int, xle. intros [_ H].
  vm_compute in H. apply H. reflexivity.
Qed.

(** * Further properties of the code *)

(** ** What the handlers let through *)

(** A [try] whose handler returns raises only what its clause does not
    name. *)
Lemma try_except_raises {A : Type} (body : result A) (classes : list pyexc)
    (a : A) (e : pyexc) :
  try_except body classes (Ok a) = Raise e ->
  body = Raise e /\ caught_by classes e = false.
Proof.
  unfold try_except. destruct body as [x | e']; [discriminate|].
  destruct (caught_by classes e') eqn:E; [discriminate|].
  intros [= <-]. split; [reflexivity | exact E].
Qed.

Lemma caught_by_cons (c : pyexc) (classes : list pyexc) (e : pyexc) :
  caught_by (c :: classes) e = false ->
  issubclass e c = false /\ caught_by classes e = false.
Proof. unfold caught_by. cbn [existsb]. apply orb_false_elim. Qed.

(** X1. [format_reset_time] raises exactly when its argument is a true
    value that is not a string (a number, a list, an object): the exception
    is then [AttributeError], from [endswith], which the handler for
    [ValueError] and [TypeError] lets through, and the clock has not been
    read. *)
Theorem format_reset_time_raises_iff
    (fromisoformat : string -> option datetime) (w : World)
    (v : pyval) (k : nat) :
  (truthy v = true -> is_str v = false ->
   format_reset_time fromisoformat w v k = (Raise AttributeError, k))
  /\ (forall e k', format_reset_time fromisoformat w v k = (Raise e, k') ->
        e = AttributeError /\ k' = k
        /\ truthy v = true /\ is_str v = false).
Proof.
  split.
  - intros Ht Hs. unfold format_reset_time. rewrite Ht. cbn [negb].
    destruct v; try discriminate Hs; reflexivity.
  - intros e k' H.
    destruct (truthy v) eqn:Ht.
    + destruct (is_str v) eqn:Hs.
      * exfalso.
        destruct (format_reset_time_ok fromisoformat w v k) as [s [k'' E]].
        { unfold timestamp_ok. rewrite Ht. destruct v; try discriminate Hs.
          reflexivity. }
        rewrite E in H. discriminate H.
      * unfold format_reset_time in H. rewrite Ht in H. cbn [negb] in H.
        destruct v; try discriminate Hs;
          injection H as <- <-; repeat split; reflexivity.
    + unfold format_reset_time in H. rewrite Ht in H. discriminate H.
Qed.

(** The theorem for a reset time given as seconds since the epoch. *)
Lemma format_reset_time_raises_iff_witness :
  format_reset_time sample_fromisoformat sample_world (PInt 1700000000) 0%nat
  = (Raise AttributeError, 0%nat).
Proof.
  refine (proj1 (format_reset_time_raises_iff sample_fromisoformat
            sample_world (PInt 1700000000) 0%nat) eq_refl eq_refl).
Defined.

(** ** Errors of a colored percentage *)

(** X2. A colored percentage ([f"{get_usage_color(p)}{p:.0f}%{RESET}"])
    fails with [TypeError] for every value that is no number, a string
    included: the comparison of [get_usage_color] is evaluated before the
    format code, whose [ValueError] is never seen. It fails for a number
    only with [OverflowError], on an [int] of 2^53 or more in magnitude
    that does not fit a float. *)
Theorem colored_percentage_errors (p : pyval) :
  (is_numeric p = false -> colored_percentage p = Raise TypeError)
  /\ (forall e, colored_percentage p = Raise e ->
        (is_numeric p = false /\ e = TypeError)
        \/ (exists z, p = PInt z /\ 2 ^ 53 <= Z.abs z /\ e = OverflowError)).
Proof.
  split.
  - destruct p; try discriminate; reflexivity.
  - intros e H. destruct (is_numeric p) eqn:Hn.
    + right. destruct p as [ | b | z | f | | | ]; try discriminate Hn.
      * destruct b; discriminate H.
      * exists z. destruct (Z.lt_ge_cases (Z.abs z) (2 ^ 53)) as [Hz | Hz].
        { exfalso.
          destruct (colored_percentage_displayable (PInt z)) as [s E].
          - unfold displayable, py_or.
            destruct (truthy (PInt z)); [|reflexivity].
            rewrite (float_of_int_small z Hz). reflexivity.
          - unfold py_or in E. cbn [truthy] in E.
            destruct (Z.eqb_spec z 0) as [-> | _]; cbn [negb] in E;
              rewrite E in H; discriminate H. }
        split; [reflexivity|split; [exact Hz|]].
        unfold colored_percentage, get_usage_color in H.
        cbn [py_ge bind] in H.
        assert (Hf : forall c, (digits <- format_0f (PInt z) ;;
                                Ok (c ++ digits ++ "%" ++ RESET)) = Raise e ->
                               e = OverflowError).
        { intros c. unfold format_0f, float_of_int.
          destruct (2 ^ 1024 <=? _); cbn [bind]; [|discriminate].
          intros [= <-]. reflexivity. }
        destruct (USAGE_THRESHOLD_HIGH <=? z); cbn [bind] in H;
          [|destruct (USAGE_THRESHOLD_MEDIUM <=? z)];
          apply Hf in H; exact H.
      * exfalso. unfold colored_percentage, get_usage_color in H.
        cbn [py_ge bind format_0f] in H.
        destruct (float_ge_int f USAGE_THRESHOLD_HIGH); cbn [bind] in H;
          [|destruct (float_ge_int f USAGE_THRESHOLD_MEDIUM)];
          discriminate H.
    + left. destruct p; try discriminate Hn;
        (split; [reflexivity|]); injection H as <-; reflexivity.
Qed.

(** The theorem for a percentage sent as the string "55". *)
Lemma colored_percentage_errors_witness :
  colored_percentage (PStr "55") = Raise TypeError.
Proof.
  refine (proj1 (colored_percentage_errors (PStr "55")) eq_refl).
Defined.

(** X3. Whatever [fetch_usage] raises was raised by the request, by the
    UTF-8 decoding of the body or by [json.loads], and is none of the
    classes its [except] clause names: it never raises [URLError],
    [HTTPError], [JSONDecodeError] or [TimeoutError]. Conversely what the
    request raises outside those classes is raised unchanged. *)
Theorem fetch_usage_raises_only_unnamed
    (json_loads : string -> result pyval) (py_repr : pyval -> string)
    (w : World) (access_token : pyval) (e : pyexc) :
  let request := usage_api w ("Bearer " ++ py_str py_repr access_token) in
  (fetch_usage json_loads py_repr w access_token = Raise e ->
   issubclass e URLError = false /\ issubclass e JSONDecodeError = false
   /\ issubclass e TimeoutError = false
   /\ e <> URLError /\ e <> HTTPError /\ e <> JSONDecodeError
   /\ e <> TimeoutError
   /\ (request = Raise e
       \/ exists body, request = Ok body
            /\ (bytes_decode body = Raise e
                \/ (bytes_decode body = Ok body /\ json_loads body = Raise e))))
  /\ (request = Raise e ->
      issubclass e URLError = false -> issubclass e JSONDecodeError = false ->
      issubclass e TimeoutError = false ->
      fetch_usage json_loads py_repr w access_token = Raise e).
Proof.
  intros request. unfold fetch_usage. fold request. split.
  - intros H. apply try_except_raises in H as [Hbody Hc].
    apply caught_by_cons in Hc as [H1 Hc].
    apply caught_by_cons in Hc as [H2 Hc].
    apply caught_by_cons in Hc as [H3 _].
    repeat split; try assumption;
      try (intros ->; discriminate H1 || discriminate H2 || discriminate H3).
    destruct request as [body | e']; cbn [bind] in Hbody.
    + right. exists body. split; [reflexivity|].
      unfold bytes_decode in *.
      destruct (utf8_valid (byte_codes body)); cbn [bind] in Hbody.
      * right. split; [reflexivity | exact Hbody].
      * left. injection Hbody as <-. reflexivity.
    + left. injection Hbody as <-. reflexivity.
  - intros E H1 H2 H3. rewrite E. unfold try_except. cbn [bind].
    unfold caught_by. cbn [existsb]. rewrite H1, H2, H3. reflexivity.
Qed.

(** The theorem for a connection reset while the response is read. *)
Lemma fetch_usage_raises_only_unnamed_witness :
  fetch_usage (decoder_of []) sample_repr
    (sample_host (Ok "") (Raise FileNotFoundError)
       (fun _ => Raise ConnectionResetError))
    (PStr "token")
  = Raise ConnectionResetError.
Proof.
  refine (proj2 (fetch_usage_raises_only_unnamed (decoder_of []) sample_repr
            (sample_host (Ok "") (Raise FileNotFoundError)
               (fun _ => Raise ConnectionResetError))
            (PStr "token") ConnectionResetError)
          eq_refl eq_refl eq_refl eq_refl).
Defined.

(** X4. The credential locator raises nothing on a platform other than
    Darwin and Linux, and on those two never one of the classes its
    [except] clauses name: never [JSONDecodeError] or [KeyError], on Linux
    never [FileNotFoundError], on Darwin never [CalledProcessError] or
    [TimeoutExpired]. *)
Theorem get_access_token_raises_only_unnamed
    (json_loads : string -> result pyval) (str_strip : string -> string)
    (w : World) (e : pyexc) :
  get_access_token json_loads str_strip w = Raise e ->
  issubclass e JSONDecodeError = false /\ issubclass e KeyError = false
  /\ ((system w = "Linux" /\ issubclass e FileNotFoundError = false)
      \/ (system w = "Darwin" /\ issubclass e CalledProcessError = false
          /\ issubclass e TimeoutExpired = false)).
Proof.
  unfold get_access_token.
  destruct (String.eqb_spec (system w) "Darwin") as [HD | HD].
  - unfold get_access_token_macos. intros H.
    apply try_except_raises in H as [_ Hc].
    apply caught_by_cons in Hc as [H1 Hc].
    apply caught_by_cons in Hc as [H2 Hc].
    apply caught_by_cons in Hc as [H3 Hc].
    apply caught_by_cons in Hc as [H4 _].
    split; [exact H3|split; [exact H4|]]. right. auto.
  - destruct (String.eqb_spec (system w) "Linux") as [HL | HL];
      [|discriminate].
    unfold get_access_token_linux. intros H.
    apply try_except_raises in H as [_ Hc].
    apply caught_by_cons in Hc as [H1 Hc].
    apply caught_by_cons in Hc as [H2 Hc].
    apply caught_by_cons in Hc as [H3 _].
    split; [exact H2|split; [exact H3|]]. left. auto.
Qed.

(** The theorem for a credentials file that is a directory. *)
Lemma get_access_token_raises_only_unnamed_witness :
  issubclass IsADirectoryError JSONDecodeError = false
  /\ issubclass IsADirectoryError KeyError = false
  /\ ((system (sample_host (Ok "") (Raise IsADirectoryError)
                 (fun _ => Raise URLError)) = "Linux"
       /\ issubclass IsADirectoryError FileNotFoundError = false)
      \/ (system (sample_host (Ok "") (Raise IsADirectoryError)
                    (fun _ => Raise URLError)) = "Darwin"
          /\ issubclass IsADirectoryError CalledProcessError = false
          /\ issubclass IsADirectoryError TimeoutExpired = false)).
Proof.
  refine (get_access_token_raises_only_unnamed (decoder_of []) sample_strip
            (sample_host (Ok "") (Raise IsADirectoryError)
               (fun _ => Raise URLError))
            IsADirectoryError eq_refl).
Defined.

(** ** Shape and accuracy of the rendered duration *)

(** X5. A positive duration is rendered in one of four forms whose numbers
    are in range: days with 0 to 23 hours, 1 to 23 hours with 0 to 59
    minutes, 1 to 59 minutes, or " (<1m)"; a zero is never the leading
    number, and 24 hours or 60 minutes are never shown. *)
Theorem render_delta_forms (d : Z) :
  0 < d ->
  (exists N M, 1 <= N /\ 0 <= M < 24
     /\ render_delta d = Ok (" (" ++ dec N ++ "d " ++ dec M ++ "h)"))
  \/ (exists N M, 1 <= N < 24 /\ 0 <= M < 60
        /\ render_delta d = Ok (" (" ++ dec N ++ "h " ++ dec M ++ "m)"))
  \/ (exists N, 1 <= N < 60 /\ render_delta d = Ok (" (" ++ dec N ++ "m)"))
  \/ (d < 60 * 10 ^ 6 /\ render_delta d = Ok " (<1m)").
Proof.
  intros Hd. rewrite render_delta_spec.
  destruct (Z.leb_spec d 0) as [H0 | _]; [lia|].
  destruct (whole_seconds_pos d Hd) as [_ Hs].
  pose proof (whole_seconds_threshold d 60 Hd ltac:(split; vm_compute; discriminate))
    as Hmin.
  set (s := whole_seconds d) in *. unfold humanize_spec.
  destruct (Z.leb_spec 86400 s) as [H1 | H1].
  - left. exists (s / 86400), (s mod 86400 / 3600).
    pose proof (Z.mod_pos_bound s 86400 ltac:(lia)).
    split; [apply Z.div_le_lower_bound; lia|].
    split; [|reflexivity]. split.
    + apply Z.div_pos; lia.
    + apply Z.div_lt_upper_bound; lia.
  - destruct (Z.leb_spec 3600 s) as [H2 | H2].
    + right. left. exists (s / 3600), (s mod 3600 / 60).
      pose proof (Z.mod_pos_bound s 3600 ltac:(lia)).
      split; [split; [apply Z.div_le_lower_bound; lia
                     |apply Z.div_lt_upper_bound; lia]|].
      split; [|reflexivity]. split.
      * apply Z.div_pos; lia.
      * apply Z.div_lt_upper_bound; lia.
    + destruct (Z.leb_spec 60 s) as [H3 | H3].
      * right. right. left. exists (s / 60).
        split; [|reflexivity].
        split; [apply Z.div_le_lower_bound; lia
               |apply Z.div_lt_upper_bound; lia].
      * right. right. right. split; [|reflexivity]. lia.
Qed.

(** The theorem for a duration of 25 hours. *)
Lemma render_delta_forms_witness :
  (exists N M, 1 <= N /\ 0 <= M < 24
     /\ render_delta (25 * 3600 * 10 ^ 6)
        = Ok (" (" ++ dec N ++ "d " ++ dec M ++ "h)"))
  \/ (exists N M, 1 <= N < 24 /\ 0 <= M < 60
        /\ render_delta (25 * 3600 * 10 ^ 6)
           = Ok (" (" ++ dec N ++ "h " ++ dec M ++ "m)"))
  \/ (exists N, 1 <= N < 60
        /\ render_delta (25 * 3600 * 10 ^ 6) = Ok (" (" ++ dec N ++ "m)"))
  \/ (25 * 3600 * 10 ^ 6 < 60 * 10 ^ 6
      /\ render_delta (25 * 3600 * 10 ^ 6) = Ok " (<1m)").
Proof.
  refine (render_delta_forms (25 * 3600 * 10 ^ 6) _). reflexivity.
Defined.

(** X6. For every positive duration a [timedelta] can hold (below 2^67
    microseconds), [int(delta.total_seconds())] is the exact number of
    whole seconds or one more: the rounding of the float quotient never
    loses a second and never adds more than one. *)
Theorem whole_seconds_within_one (d : Z) :
  0 < d < 2 ^ 67 ->
  d / 10 ^ 6 <= whole_seconds d <= d / 10 ^ 6 + 1.
Proof.
  intros [Hd Hlt]. unfold whole_seconds, total_seconds.
  destruct (int_true_div_pos d (10 ^ 6) Hd ltac:(reflexivity))
    as [m [e [E [Hm [He Hround]]]]].
  rewrite E. unfold int_of_float, signed. rewrite Z2N.id by lia.
  assert (Hlog : Z.log2 d < 67) by (apply Z.log2_lt_pow2; lia).
  change (Z.log2 (10 ^ 6)) with 19 in He.
  destruct (Z.leb_spec 0 e) as [Hneg | _]; [lia|].
  replace (Z.max 0 (- e)) with (- e) in Hround by lia.
  replace (Z.max 0 e) with 0 in Hround by lia.
  change (2 ^ 0) with 1 in Hround. rewrite Z.mul_1_r in Hround.
  assert (HP : 2 ^ 1 <= 2 ^ (- e)) by (apply Z.pow_le_mono_r; lia).
  change (2 ^ 1) with 2 in HP.
  set (P := 2 ^ (- e)) in *.
  change (10 ^ 6) with 1000000 in *.
  pose proof (round_half_even_nearest (d * P) 1000000 ltac:(lia)) as Hnear.
  pose proof (round_half_even_lower (d * P) 1000000 ltac:(lia)) as Hlower.
  rewrite <- Hround in Hnear, Hlower.
  pose proof (Z.div_mod d 1000000 ltac:(lia)) as Hdm.
  pose proof (Z.mod_pos_bound d 1000000 ltac:(lia)) as Hmod.
  set (s := d / 1000000) in *. set (t := d mod 1000000) in *.
  assert (Hq : s * P <= d * P / 1000000).
  { apply Z.div_le_lower_bound; [lia|]. nia. }
  split.
  - apply Z.div_le_lower_bound; [lia|]. lia.
  - assert (Hup : m < (s + 2) * P) by nia.
    assert (m / P < s + 2) by (apply Z.div_lt_upper_bound; lia). lia.
Qed.

(** The theorem a microsecond before 200000 days, where the second is
    rounded up. *)
Lemma whole_seconds_within_one_witness :
  (200000 * 86400 * 10 ^ 6 - 1) / 10 ^ 6
  <= whole_seconds (200000 * 86400 * 10 ^ 6 - 1)
  <= (200000 * 86400 * 10 ^ 6 - 1) / 10 ^ 6 + 1.
Proof.
  refine (whole_seconds_within_one (200000 * 86400 * 10 ^ 6 - 1) _).
  split; reflexivity.
Defined.

(** ** The project name *)

Lemma slice_from_0 (s : string) : slice_from 0 s = s.
Proof. destruct s; reflexivity. Qed.

(** [rfind] finds the last slash, and the slice after it is
    [after_last_slash]. *)
Lemma rfind_from_slice (s : string) :
  forall i found, 0 <= i ->
    (contains "/" s = false -> rfind_from "/" s i found = found)
    /\ (contains "/" s = true ->
        i <= rfind_from "/" s i found
        /\ slice_from (Z.to_nat (rfind_from "/" s i found - i + 1)) s
           = after_last_slash s).
Proof.
  induction s as [|d rest IH]; intros i found Hi.
  - split; [reflexivity | discriminate].
  - cbn [contains rfind_from after_last_slash].
    destruct (IH (i + 1) (if Ascii.eqb d "/" then i else found)
                ltac:(lia)) as [IH1 IH2].
    destruct (contains "/" rest) eqn:Hrest.
    + rewrite orb_true_r. split; [discriminate|]. intros _.
      destruct (IH2 eq_refl) as [Hle Hslice]. split; [lia|].
      set (r := rfind_from "/" rest (i + 1)
                  (if Ascii.eqb d "/" then i else found)) in *.
      replace (Z.to_nat (r - i + 1)) with (S (Z.to_nat (r - (i + 1) + 1)))
        by lia.
      exact Hslice.
    + rewrite orb_false_r, (IH1 eq_refl).
      destruct (Ascii.eqb d "/").
      * split; [discriminate|]. intros _. split; [lia|].
        replace (Z.to_nat (i - i + 1)) with 1%nat by lia.
        cbn [slice_from]. apply slice_from_0.
      * split; [reflexivity | discriminate].
Qed.

Lemma after_last_slash_no_slash (s : string) :
  contains "/" s = false -> after_last_slash s = s.
Proof.
  destruct s as [|d rest]; [reflexivity|]. cbn [contains after_last_slash].
  intros H. apply orb_false_elim in H as [Hd Hrest].
  rewrite Hrest, Hd. reflexivity.
Qed.

Lemma after_last_slash_clean (s : string) :
  contains "/" (after_last_slash s) = false.
Proof.
  induction s as [|d rest IH]; [reflexivity|]. cbn [after_last_slash].
  destruct (contains "/" rest) eqn:Hrest; [exact IH|].
  destruct (Ascii.eqb d "/") eqn:Hd; [exact Hrest|].
  cbn [contains]. rewrite Hd, Hrest. reflexivity.
Qed.

Lemma contains_append (c : ascii) (a b : string) :
  contains c (a ++ b) = contains c a || contains c b.
Proof.
  induction a as [|d a IH]; [reflexivity|]. cbn [append contains].
  rewrite IH, orb_assoc. reflexivity.
Qed.

Lemma after_last_slash_join (dir name : string) :
  contains "/" name = false ->
  after_last_slash (dir ++ "/" ++ name) = name.
Proof.
  intros Hname. induction dir as [|d dir IH].
  - cbn. rewrite Hname. reflexivity.
  - cbn [append after_last_slash].
    assert (H : contains "/" (dir ++ "/" ++ name) = true).
    { rewrite contains_append. cbn. apply orb_true_r. }
    change (String "/" name) with ("/" ++ name) in *.
    rewrite H. exact IH.
Qed.

(** X7. The project name [os.path.basename(cwd)] of a string [cwd] is
    always defined and never contains a slash; it is [cwd] itself when
    [cwd] has no slash and [name] when [cwd] is [dir/name] with a
    slash-free [name], so it is empty for a [cwd] that ends in a slash. *)
Theorem basename_last_component (cwd : string) :
  exists project,
    basename (PStr cwd) = Ok project
    /\ contains "/" project = false
    /\ (contains "/" cwd = false -> project = cwd)
    /\ (forall dir name, cwd = dir ++ "/" ++ name ->
          contains "/" name = false -> project = name)
    /\ (forall dir, cwd = dir ++ "/" -> project = "").
Proof.
  exists (after_last_slash cwd).
  assert (E : basename (PStr cwd) = Ok (after_last_slash cwd)).
  { unfold basename, rfind.
    destruct (rfind_from_slice cwd 0 (-1) ltac:(lia)) as [H1 H2].
    destruct (contains "/" cwd) eqn:Hc.
    - destruct (H2 eq_refl) as [_ Hslice].
      rewrite Z.sub_0_r in Hslice. rewrite Hslice. reflexivity.
    - rewrite (H1 eq_refl). cbn [Z.add Z.to_nat].
      rewrite slice_from_0, after_last_slash_no_slash by exact Hc.
      reflexivity. }
  split; [exact E|split; [apply after_last_slash_clean|split; [|split]]].
  - apply after_last_slash_no_slash.
  - intros dir name -> Hname. apply after_last_slash_join, Hname.
  - intros dir ->. apply (after_last_slash_join dir ""). reflexivity.
Qed.

(** ** Usage data with nothing in it *)

(** X8. Usage data that is a non-empty object without the two windows, or
    whose windows hold no [utilization] and no [resets_at] (absent, null,
    zero or empty), is shown as "5h: 0% | 7d: 0%" in green, with no reset
    time and without reading the clock; the "Usage: N/A" placeholder is
    kept for data that is itself a false value. *)
Theorem format_usage_blank_windows
    (fromisoformat : string -> option datetime) (w : World)
    (items : list (string * pyval)) (k : nat) :
  items <> [] ->
  blank_window (member "five_hour" (PDict []) items) = true ->
  blank_window (member "seven_day" (PDict []) items) = true ->
  format_usage fromisoformat w (PDict items) k
  = (Ok ("5h: " ++ GREEN ++ "0%" ++ RESET
         ++ " | 7d: " ++ GREEN ++ "0%" ++ RESET), k).
Proof.
  intros Hne H5 H7. unfold format_usage.
  assert (Ht : truthy (PDict items) = true).
  { destruct items; [contradiction|reflexivity]. }
  rewrite Ht. cbn [negb]. unfold bindM, lift, retM, py_get at 1 2.
  unfold member in H5, H7.
  destruct (match lookup "five_hour" items with
            | Some v => v
            | None => PDict []
            end) as [ | | | | | | i5]; try discriminate H5.
  destruct (match lookup "seven_day" items with
            | Some v => v
            | None => PDict []
            end) as [ | | | | | | i7]; try discriminate H7.
  cbn [blank_window] in H5, H7. cbn [py_get].
  apply andb_prop in H5 as [Hu5 Ht5]. apply andb_prop in H7 as [Hu7 Ht7].
  apply negb_true_iff in Hu5, Ht5, Hu7, Ht7.
  unfold format_reset_time, py_or. rewrite Hu5, Ht5, Hu7, Ht7.
  reflexivity.
Qed.

(** The theorem for an answer that holds only an unrelated member. *)
Lemma format_usage_blank_windows_witness :
  format_usage sample_fromisoformat sample_world
    (PDict [("extra_usage", PNone)]) 0%nat
  = (Ok ("5h: " ++ GREEN ++ "0%" ++ RESET
         ++ " | 7d: " ++ GREEN ++ "0%" ++ RESET), 0%nat).
Proof.
  refine (format_usage_blank_windows sample_fromisoformat sample_world
            [("extra_usage", PNone)] 0%nat _ eq_refl eq_refl).
  discriminate.
Defined.

(** ** Order of the clock readings *)

(** X9. When both windows carry a timestamp that parses, [format_usage]
    reads the clock twice: the 5-hour reset is measured against the first
    reading and the 7-day reset against the second, taken later. *)
Theorem format_usage_clock_order
    (fromisoformat : string -> option datetime) (w : World)
    (items i5 i7 : list (string * pyval)) (s5 s7 c5 c7 : string)
    (dt5 dt7 : datetime) (k : nat) :
  lookup "five_hour" items = Some (PDict i5) ->
  lookup "seven_day" items = Some (PDict i7) ->
  lookup "resets_at" i5 = Some (PStr s5) -> s5 <> "" ->
  lookup "resets_at" i7 = Some (PStr s7) -> s7 <> "" ->
  fromisoformat (iso_text s5) = Some dt5 ->
  fromisoformat (iso_text s7) = Some dt7 ->
  colored_percentage (py_or (member "utilization" (PInt 0) i5) (PInt 0))
  = Ok c5 ->
  colored_percentage (py_or (member "utilization" (PInt 0) i7) (PInt 0))
  = Ok c7 ->
  exists r5 r7,
    render_delta (instant dt5 - clock w k) = Ok r5
    /\ render_delta (instant dt7 - clock w (S k)) = Ok r7
    /\ format_usage fromisoformat w (PDict items) k
       = (Ok ("5h: " ++ (c5 ++ r5) ++ " | 7d: " ++ (c7 ++ r7)), S (S k)).
Proof.
  intros E5 E7 Er5 Hs5 Er7 Hs7 Ep5 Ep7 Ec5 Ec7.
  exists (if instant dt5 - clock w k <=? 0 then " (now)"
          else humanize_spec (whole_seconds (instant dt5 - clock w k))),
         (if instant dt7 - clock w (S k) <=? 0 then " (now)"
          else humanize_spec (whole_seconds (instant dt7 - clock w (S k)))).
  split; [apply render_delta_spec|split; [apply render_delta_spec|]].
  unfold format_usage.
  assert (Ht : truthy (PDict items) = true).
  { destruct items; [discriminate E5|reflexivity]. }
  rewrite Ht. cbn [negb]. unfold bindM, lift, retM, py_get at 1 2.
  rewrite E5, E7. cbn [py_get]. rewrite Er5, Er7.
  rewrite (format_reset_time_str fromisoformat w s5 k Hs5), Ep5.
  rewrite render_delta_spec.
  rewrite (format_reset_time_str fromisoformat w s7 (S k) Hs7), Ep7.
  rewrite render_delta_spec.
  unfold member in Ec5, Ec7. rewrite Ec5, Ec7. reflexivity.
Qed.

(** The theorem on a clock that advances by a minute between the two
    readings: the same reset instant is 1h 30m away for the first window
    and 1h 29m away for the second. *)
Lemma format_usage_clock_order_witness :
  format_usage sample_fromisoformat ticking_world (PDict sample_usage_items)
    0%nat
  = (Ok ("5h: " ++ (GREEN ++ "10%" ++ RESET ++ " (1h 30m)")
         ++ " | 7d: " ++ (YELLOW ++ "60%" ++ RESET ++ " (1h 29m)")), 2%nat).
Proof.
  destruct (format_usage_clock_order sample_fromisoformat ticking_world
              sample_usage_items
              [("utilization", PInt 10);
               ("resets_at", PStr "0001-01-01T01:30:00Z")]
              [("utilization", PInt 60);
               ("resets_at", PStr "0001-01-01T01:30:00")]
              "0001-01-01T01:30:00Z" "0001-01-01T01:30:00"
              (GREEN ++ "10%" ++ RESET) (YELLOW ++ "60%" ++ RESET)
              {| wall := 5400 * 10 ^ 6; utcoffset := Some 0 |}
              {| wall := 5400 * 10 ^ 6; utcoffset := None |} 0%nat
              eq_refl eq_refl eq_refl ltac:(discriminate)
              eq_refl ltac:(discriminate) eq_refl eq_refl eq_refl eq_refl)
    as [r5 [r7 [E5 [E7 E]]]].
  vm_compute in E5. injection E5 as <-.
  vm_compute in E7. injection E7 as <-.
  rewrite E. reflexivity.
Defined.

(** ** Without a token, no network *)

(** X10. When the locator returns no token (absence, or a false value such
    as the empty string), the usage endpoint is not consulted: the outcome
    of the program is the same whatever the network would answer. *)
Theorem no_token_no_network
    (json_loads : string -> result pyval) (str_strip : string -> string)
    (py_repr : pyval -> string) (fromisoformat : string -> option datetime)
    (w : World) (api : string -> result string) (token : pyval) :
  get_access_token json_loads str_strip w = Ok token ->
  truthy token = false ->
  run json_loads str_strip py_repr fromisoformat (with_usage_api w api)
  = run json_loads str_strip py_repr fromisoformat w.
Proof.
  intros Et Ht.
  assert (Et' : get_access_token json_loads str_strip (with_usage_api w api)
                = Ok token) by exact Et.
  unfold run, main. cbn [with_usage_api stdin_read].
  destruct (stdin_read w) as [raw | e]; cbn [bind]; [|reflexivity].
  destruct (json_loads raw) as [data | e]; [|reflexivity].
  unfold bindM, lift.
  destruct (extract_fields data) as [[[project model] ctx] | e];
    [|reflexivity].
  unfold main_line, bindM, lift, retM. rewrite Et, Et', Ht. reflexivity.
Qed.

(** The theorem on the sample host, whose credentials file is missing, put
    behind a network that would answer. *)
Lemma no_token_no_network_witness :
  run (decoder_of [(sample_payload_text, sample_payload)]) sample_strip
    sample_repr sample_fromisoformat
    (with_usage_api sample_world (fun _ => Ok "{}"))
  = run (decoder_of [(sample_payload_text, sample_payload)]) sample_strip
      sample_repr sample_fromisoformat sample_world.
Proof.
  refine (no_token_no_network
            (decoder_of [(sample_payload_text, sample_payload)]) sample_strip
            sample_repr sample_fromisoformat sample_world
            (fun _ => Ok "{}") PNone eq_refl eq_refl).
Defined.

(** ** A plain body always decodes *)

Lemma utf8_valid_ascii (l : list Z) :
  forallb (fun b => b <=? 127) l = true -> utf8_valid l = true.
Proof.
  induction l as [|b l IH]; [reflexivity|]. cbn [forallb utf8_valid].
  intros H. apply andb_prop in H as [Hb Hl]. rewrite Hb. exact (IH Hl).
Qed.

(** X11. A response body made of ASCII bytes only never fails the UTF-8
    decoding: the fetcher returns what [json.loads] makes of it. *)
Theorem fetch_usage_ascii_body
    (json_loads : string -> result pyval) (py_repr : pyval -> string)
    (w : World) (access_token : pyval) (body : string) (usage : pyval) :
  usage_api w ("Bearer " ++ py_str py_repr access_token) = Ok body ->
  is_ascii body = true ->
  json_loads body = Ok usage ->
  bytes_decode body = Ok body
  /\ fetch_usage json_loads py_repr w access_token = Ok usage.
Proof.
  intros E Ha Ej.
  assert (Hd : bytes_decode body = Ok body).
  { unfold bytes_decode. rewrite (utf8_valid_ascii _ Ha). reflexivity. }
  split; [exact Hd|].
  unfold fetch_usage. rewrite E. cbn [bind]. rewrite Hd. cbn [bind].
  rewrite Ej. reflexivity.
Qed.

(** The theorem for the body [{}]. *)
Lemma fetch_usage_ascii_body_witness :
  bytes_decode "{}" = Ok "{}"
  /\ fetch_usage (decoder_of [("{}", PDict [])]) sample_repr
       (with_usage_api sample_world (fun _ => Ok "{}")) (PStr "token")
     = Ok (PDict []).
Proof.
  refine (fetch_usage_ascii_body (decoder_of [("{}", PDict [])]) sample_repr
            (with_usage_api sample_world (fun _ => Ok "{}")) (PStr "token")
            "{}" (PDict []) eq_refl eq_refl eq_refl).
Defined.

(** ** An exception past a stage ends the run *)

(** X12. [main] prints only as its last statement and has no handler
    around its stages: once standard input is decoded, an exception raised
    by the extraction, by the credential locator, by the fetcher, by the
    usage formatter or by the context percentage (whether no token was
    found, or one was found and the usage fetched and formatted) leaves the
    process with that exception, and no line, not even the fallback one, is
    printed. *)
Theorem run_propagates
    (json_loads : string -> result pyval) (str_strip : string -> string)
    (py_repr : pyval -> string) (fromisoformat : string -> option datetime)
    (w : World) (raw : string) (data : pyval) (e : pyexc) :
  stdin_read w = Ok raw -> json_loads raw = Ok data ->
  let printed := run json_loads str_strip py_repr fromisoformat w in
  (extract_fields data = Raise e -> printed = Traceback e)
  /\ (forall fields, extract_fields data = Ok fields ->
        (get_access_token json_loads str_strip w = Raise e ->
         printed = Traceback e)
        /\ (forall token,
              get_access_token json_loads str_strip w = Ok token ->
              (truthy token = true ->
               fetch_usage json_loads py_repr w token = Raise e ->
               printed = Traceback e)
              /\ (forall usage k,
                    truthy token = true ->
                    fetch_usage json_loads py_repr w token = Ok usage ->
                    format_usage fromisoformat w usage 0%nat = (Raise e, k) ->
                    printed = Traceback e)
              /\ (truthy token = false ->
                  colored_percentage (snd fields) = Raise e ->
                  printed = Traceback e)
              /\ (forall usage k out,
                    truthy token = true ->
                    fetch_usage json_loads py_repr w token = Ok usage ->
                    format_usage fromisoformat w usage 0%nat = (Ok out, k) ->
                    colored_percentage (snd fields) = Raise e ->
                    printed = Traceback e))).
Proof.
  intros E1 E2 printed. split.
  - intros E3. unfold printed, run, main. rewrite E1. cbn [bind]. rewrite E2.
    unfold bindM, lift. rewrite E3. reflexivity.
  - intros fields E3.
    assert (Hrun := run_decoded json_loads str_strip py_repr fromisoformat w
                      raw data fields E1 E2 E3).
    fold printed in Hrun. rewrite Hrun.
    destruct fields as [[project model] ctx]. cbn [snd].
    unfold main_line, bindM, lift, retM. split.
    + intros Et. rewrite Et. reflexivity.
    + intros token Et. rewrite Et. split; [|split; [|split]].
      * intros Ht Ef. rewrite Ht, Ef. reflexivity.
      * intros usage k Ht Ef Eu. rewrite Ht, Ef, Eu. reflexivity.
      * intros Ht Ec. rewrite Ht, Ec. reflexivity.
      * intros usage k out Ht Ef Eu Ec. rewrite Ht, Ef, Eu, Ec. reflexivity.
Qed.

(** The theorem for a payload whose [cwd] is a number. *)
Lemma run_propagates_witness :
  run (decoder_of [("{" ++ quoted "cwd" ++ ": 5}", PDict [("cwd", PInt 5)])])
    sample_strip sample_repr sample_fromisoformat
    (world_with_stdin (Ok ("{" ++ quoted "cwd" ++ ": 5}")))
  = Traceback TypeError.
Proof.
  refine (proj1 (run_propagates
            (decoder_of [("{" ++ quoted "cwd" ++ ": 5}",
                          PDict [("cwd", PInt 5)])])
            sample_strip sample_repr sample_fromisoformat
            (world_with_stdin (Ok ("{" ++ quoted "cwd" ++ ": 5}")))
            ("{" ++ quoted "cwd" ++ ": 5}") (PDict [("cwd", PInt 5)])
            TypeError eq_refl eq_refl)
          eq_refl).
Defined.

(** ** Members the program does not read *)

(** X13. The extraction looks at the members [cwd], [model] and
    [context_window] only: a payload with any other member added gives the
    same fields, or the same exception. *)
Theorem extract_fields_ignores_other_members
    (k : string) (v : pyval) (items : list (string * pyval)) :
  k <> "cwd" -> k <> "model" -> k <> "context_window" ->
  extract_fields (PDict ((k, v) :: items)) = extract_fields (PDict items).
Proof.
  intros H1 H2 H3. unfold extract_fields, py_get. cbn [lookup].
  destruct (String.eqb_spec "cwd" k) as [E | _]; [congruence|].
  destruct (String.eqb_spec "model" k) as [E | _]; [congruence|].
  destruct (String.eqb_spec "context_window" k) as [E | _]; [congruence|].
  reflexivity.
Qed.

(** The theorem for the [session_id] the host also sends. *)
Lemma extract_fields_ignores_other_members_witness :
  extract_fields (PDict (("session_id", PStr "abc") :: [("cwd", PStr "/a/b")]))
  = extract_fields (PDict [("cwd", PStr "/a/b")]).
Proof.
  refine (extract_fields_ignores_other_members "session_id" (PStr "abc")
            [("cwd", PStr "/a/b")] _ _ _); discriminate.
Defined.

(** ** A small negative percentage *)

(** X14. A negative float percentage of at most one half in magnitude is
    displayed as "-0%" (the sign is kept, the magnitude rounds to zero), in
    green. *)
Theorem colored_percentage_negative_zero (p : pyval) (x : xreal) :
  number p = Some x -> xle (Real (-1) (-1)) x -> xlt x (of_int 0) ->
  colored_percentage p = Ok (GREEN ++ "-0" ++ "%" ++ RESET).
Proof.
  unfold of_int, xlt. intros Hn H1 H2.
  assert (Hint : forall z, x = Real z 0 -> False).
  { intros z ->. cbv [xle] in H1, H2.
    change (Z.max 0 (- -1)) with 1 in *. change (Z.max 0 (-1)) with 0 in *.
    change (Z.max 0 (- 0)) with 0 in *. change (Z.max 0 0) with 0 in *.
    change (2 ^ 0) with 1 in *. change (2 ^ 1) with 2 in *. lia. }
  assert (Hc : get_usage_color p = Ok GREEN).
  { destruct (get_usage_color_cases p x Hn)
      as [[H80 E] | [[H80 [H50 E]] | [H50 E]]]; [| |exact E]; exfalso.
    - apply H2. destruct x as [ | a e | ]; cbv [xle of_int] in *; try tauto.
      change (Z.max 0 (- 0)) with 0 in *. change (Z.max 0 0) with 0 in *.
      change (2 ^ 0) with 1 in *. pose proof (pow2_pos e).
      pose proof (pow2_pos (- e)). nia.
    - apply H2. destruct x as [ | a e | ]; cbv [xle of_int] in *; try tauto.
      change (Z.max 0 (- 0)) with 0 in *. change (Z.max 0 0) with 0 in *.
      change (2 ^ 0) with 1 in *. pose proof (pow2_pos e).
      pose proof (pow2_pos (- e)). nia. }
  assert (Hd : format_0f p = Ok "-0").
  { destruct p as [ | b | z | f | s | l | d]; simpl in Hn;
      try discriminate Hn.
    - injection Hn as <-. exfalso. eapply Hint. reflexivity.
    - injection Hn as <-. exfalso. eapply Hint. reflexivity.
    - destruct f as [ | neg | neg m e]; try discriminate Hn.
      + injection Hn as <-. destruct neg; simpl in H1, H2; tauto.
      + injection Hn as <-. cbv [xle] in H1, H2.
        change (Z.max 0 (- -1)) with 1 in *.
        change (Z.max 0 (-1)) with 0 in *.
        change (Z.max 0 (- 0)) with 0 in *. change (Z.max 0 0) with 0 in *.
        change (2 ^ 1) with 2 in *. change (2 ^ 0) with 1 in *.
        pose proof (pow2_pos e) as HP. pose proof (pow2_pos (- e)) as HQ.
        assert (Hneg : neg = true).
        { destruct neg; [reflexivity|]. unfold signed in H2. exfalso.
          apply H2. nia. }
        subst neg. unfold signed in H1, H2.
        destruct (Z.leb_spec 0 e) as [He | He].
        * exfalso. replace (Z.max 0 (- e)) with 0 in * by lia.
          change (2 ^ 0) with 1 in *. nia.
        * replace (Z.max 0 (- e)) with (- e) in * by lia.
          replace (Z.max 0 e) with 0 in * by lia. change (2 ^ 0) with 1 in *.
          set (D := 2 ^ (- e)) in *.
          assert (Hm : 0 < Z.of_N m <= D) by lia.
          unfold format_0f, format_float_0f.
          destruct (Z.leb_spec 0 e); [lia|]. fold D.
          assert (Hr : round_half_even (Z.of_N m) D = 0).
          { unfold round_half_even.
            assert (Hlt : Z.of_N m < D) by lia.
            rewrite (Z.div_small (Z.of_N m) D) by lia.
            rewrite (Z.mod_small (Z.of_N m) D) by lia.
            destruct (Z.compare_spec (2 * Z.of_N m) D); try reflexivity.
            lia. }
          rewrite Hr. reflexivity. }
  unfold colored_percentage. rewrite Hc, Hd. reflexivity.
Qed.

(** The theorem at -0.25. *)
Lemma colored_percentage_negative_zero_witness :
  colored_percentage (PFloat (FFin true 1 (-2)))
  = Ok (GREEN ++ "-0" ++ "%" ++ RESET).
Proof.
  refine (colored_percentage_negative_zero (PFloat (FFin true 1 (-2)))
            (Real (-1) (-2)) eq_refl _ _).
  - unfold xle. simpl. lia.
  - unfold xlt, of_int, xle. simpl. lia.
Defined.

(** ** One store per platform *)

(** X15. The locator consults one store only: on Linux its result depends
    on the credentials file and not on the keychain, on Darwin on the
    keychain and not on the file, and elsewhere on neither. *)
Theorem get_access_token_one_store
    (json_loads : string -> result pyval) (str_strip : string -> string)
    (w w' : World) :
  system w = system w' ->
  (system w = "Linux" -> credentials_file w = credentials_file w' ->
   get_access_token json_loads str_strip w
   = get_access_token json_loads str_strip w')
  /\ (system w = "Darwin" -> keychain w = keychain w' ->
      get_access_token json_loads str_strip w
      = get_access_token json_loads str_strip w')
  /\ (system w <> "Linux" -> system w <> "Darwin" ->
      get_access_token json_loads str_strip w
      = get_access_token json_loads str_strip w').
Proof.
  intros Hs. unfold get_access_token. rewrite <- Hs.
  split; [|split].
  - intros HL Hf. rewrite HL. cbn [String.eqb Ascii.eqb Bool.eqb].
    unfold get_access_token_linux. rewrite Hf. reflexivity.
  - intros HD Hk. rewrite HD. cbn [String.eqb Ascii.eqb Bool.eqb].
    unfold get_access_token_macos. rewrite Hk. reflexivity.
  - intros HL HD.
    destruct (String.eqb_spec (system w) "Darwin"); [contradiction|].
    destruct (String.eqb_spec (system w) "Linux"); [contradiction|].
    reflexivity.
Qed.

(** The theorem for two Linux hosts that differ in their keychain only. *)
Lemma get_access_token_one_store_witness :
  get_access_token (decoder_of []) sample_strip sample_world
  = get_access_token (decoder_of []) sample_strip
      {| stdin_read := Ok "";
         system := "Linux";
         keychain := Ok "{}";
         credentials_file := Raise FileNotFoundError;
         usage_api := fun _ => Raise URLError;
         clock := fun _ => 0 |}.
Proof.
  refine (proj1 (get_access_token_one_store (decoder_of []) sample_strip
            sample_world
            {| stdin_read := Ok "";
               system := "Linux";
               keychain := Ok "{}";
               credentials_file := Raise FileNotFoundError;
               usage_api := fun _ => Raise URLError;
               clock := fun _ => 0 |} eq_refl) eq_refl eq_refl).
Defined.

(** ** The trailing Z *)

Lemma last_char_app (t u : string) :
  u <> "" -> last_char (t ++ u) = last_char u.
Proof.
  intros Hu. induction t as [|d t IH]; [reflexivity|].
  cbn [append last_char]. rewrite <- IH.
  destruct (t ++ u) eqn:E; [|reflexivity].
  destruct t; [cbn in E; contradiction|discriminate E].
Qed.

Lemma but_last_app_char (t : string) (c : ascii) :
  but_last (t ++ String c "") = t.
Proof.
  induction t as [|d t IH]; [reflexivity|].
  cbn [append but_last]. rewrite IH.
  destruct (t ++ String c "") eqn:E; [|reflexivity].
  destruct t; discriminate E.
Qed.

(** X16. A timestamp written with a trailing [Z] is rendered exactly as
    the same timestamp written with [+00:00]: both reach [fromisoformat] as
    the same text. Only one trailing capital [Z] is replaced, and a text
    that does not end in [Z] is parsed as it is. *)
Theorem format_reset_time_trailing_Z
    (fromisoformat : string -> option datetime) (w : World)
    (t : string) (k : nat) :
  iso_text (t ++ "Z") = t ++ "+00:00"
  /\ iso_text (t ++ "+00:00") = t ++ "+00:00"
  /\ format_reset_time fromisoformat w (PStr (t ++ "Z")) k
     = format_reset_time fromisoformat w (PStr (t ++ "+00:00")) k
  /\ (forall s, endswith s "Z" = false -> iso_text s = s).
Proof.
  assert (E1 : iso_text (t ++ "Z") = t ++ "+00:00").
  { unfold iso_text, endswith. rewrite last_char_app by discriminate.
    cbn [last_char Ascii.eqb Bool.eqb]. rewrite but_last_app_char.
    reflexivity. }
  assert (E2 : iso_text (t ++ "+00:00") = t ++ "+00:00").
  { unfold iso_text, endswith. rewrite last_char_app by discriminate.
    reflexivity. }
  split; [exact E1|split; [exact E2|split]].
  - assert (H1 : t ++ "Z" <> "") by (destruct t; discriminate).
    assert (H2 : t ++ "+00:00" <> "") by (destruct t; discriminate).
    rewrite (format_reset_time_str fromisoformat w _ k H1).
    rewrite (format_reset_time_str fromisoformat w _ k H2).
    rewrite E1, E2. reflexivity.
  - intros s H. unfold iso_text. rewrite H. reflexivity.
Qed.

(** ** No context usage *)

(** X17. A payload with no [context_window], or one whose
    [used_percentage] is absent, null, zero or another false value, shows
    the context usage as "0%" in green. *)
Theorem context_usage_defaults_to_zero (items : list (string * pyval)) :
  well_typed_payload (PDict items) = true ->
  truthy match nested "context_window" "used_percentage" items with
         | Some v => v
         | None => PNone
         end = false ->
  exists project model context_percentage,
    extract_fields (PDict items) = Ok (project, model, context_percentage)
    /\ context_percentage = PInt 0
    /\ colored_percentage context_percentage
       = Ok (tier_color Low ++ "0%" ++ RESET).
Proof.
  unfold well_typed_payload, extract_fields, nested, py_get. intros H.
  apply andb_prop in H as [H Hcw]. apply andb_prop in H as [Hcwd Hmodel].
  destruct (lookup "cwd" items) as [[ | | | | s | | ]|]; try discriminate Hcwd;
  destruct (lookup "model" items) as [[ | | | | | | m]|];
    try discriminate Hmodel;
  destruct (lookup "context_window" items) as [[ | | | | | | c]|];
    try discriminate Hcw;
  cbn [bind basename]; intros Hfalse;
  try destruct (lookup "used_percentage" c) as [up|];
  unfold py_or; try rewrite Hfalse;
  do 3 eexists; (split; [reflexivity|split; reflexivity]).
Qed.

(** The theorem for a payload that holds a [cwd] only. *)
Lemma context_usage_defaults_to_zero_witness :
  exists project model context_percentage,
    extract_fields (PDict [("cwd", PStr "/home/u/myproj")])
    = Ok (project, model, context_percentage)
    /\ context_percentage = PInt 0
    /\ colored_percentage context_percentage
       = Ok (tier_color Low ++ "0%" ++ RESET).
Proof.
  refine (context_usage_defaults_to_zero [("cwd", PStr "/home/u/myproj")]
            eq_refl eq_refl).
Defined.
